(** * acebase-server: OAuth2 providers (GitHub, GitLab), provider registry
      and the /info route

    A shallow embedding of
      - src/oauth-providers/github.ts   (class GithubAuthProvider)
      - src/oauth-providers/gitlab.ts   (class GitlabAuthProvider)
      - src/oauth-providers/index.ts    (the registry oAuth2Providers)
      - dist/esm/routes/meta-info.js    (the /info/<dbname> route)

    JavaScript objects are finite maps from property names to values
    (their own properties), arrays are lists, `async` methods are
    computations in a state-and-exception monad whose state holds the
    instance field `_config` and the log of the requests handed to `fetch`.
    The network is an oracle: it decides the answer of the n-th request. *)

From Stdlib Require Import Ascii QArith Qround Qabs.
From stdpp Require Import gmap strings list fin_maps pretty.

Set Warnings "-register-all".

(** ** JavaScript values *)

(** Numbers are the rationals they denote; [JDate None] is an invalid date,
    [JDate (Some t)] the instant [t] in milliseconds since the epoch. *)
Inductive jval : Type :=
  | JUndefined
  | JNull
  | JBool (b : bool)
  | JNum (q : Q)
  | JStr (s : string)
  | JArr (l : list jval)
  | JObj (o : gmap string jval)
  | JDate (t : option Z).

Abbreviation jobj := (gmap string jval).

(** What the host's number and date conversions do is not part of the
    repository; the code only calls them. *)
Class JsHost := {
  Number_toString : Q → string;
  String_toNumber : string → option Q;
  Date_toString : option Z → string
}.

(** ToBoolean: the test of `if (v)`, `v ? a : b`, `!v` and `a || b`. *)
Definition truthy (v : jval) : bool :=
  match v with
  | JUndefined | JNull => false
  | JBool b => b
  | JNum q => negb (Qeq_bool q 0)
  | JStr s => negb (String.eqb s EmptyString)
  | JArr _ | JObj _ | JDate _ => true
  end.

(** `a || b` *)
Definition js_or (a b : jval) : jval := if truthy a then a else b.

(** `o.k` on an object made by JSON.parse or by an object literal, for a
    name [k] that Object.prototype does not define: the own property, or
    undefined. *)
Definition get_prop (o : jobj) (k : string) : jval := default JUndefined (o !! k).

(** `o[k] = v` on a plain object. Assigning to `__proto__` runs the setter
    inherited from Object.prototype: it may change the prototype link, and
    never creates an own property. *)
Definition set_prop (o : jobj) (k : string) (v : jval) : jobj :=
  if String.eqb k "__proto__" then o else <[k := v]> o.

(** `Object.keys(o)`: the own property names, once each. *)
Definition Object_keys (o : jobj) : list string := (map_to_list o).*1.

(** `Object.assign(target, source)` *)
Definition Object_assign (target source : jobj) : jobj :=
  foldl (λ t kv, set_prop t kv.1 kv.2) target (map_to_list source).

(** An object literal `{ k1: v1, ..., kn: vn }` with distinct names. *)
Definition literal (fields : list (string * jval)) : jobj := list_to_map fields.

Section Conversions.
Context `{JsHost}.

(** ToString, as applied by template literals, `+` with a string and
    `new Error(v)`. *)
Fixpoint to_string (v : jval) : string :=
  match v with
  | JUndefined => "undefined"
  | JNull => "null"
  | JBool b => if b then "true" else "false"
  | JNum q => Number_toString q
  | JStr s => s
  | JArr l =>
      String.concat ","
        (map (λ x, match x with
                   | JUndefined | JNull => EmptyString
                   | _ => to_string x
                   end) l)
  | JObj _ => "[object Object]"
  | JDate t => Date_toString t
  end.

(** ToNumber; [None] stands for a result that is not a finite number. *)
Definition to_number (v : jval) : option Q :=
  match v with
  | JUndefined => None
  | JNull => Some 0%Q
  | JBool b => Some (if b then 1%Q else 0%Q)
  | JNum q => Some q
  | JStr s => String_toNumber s
  | JArr _ => String_toNumber (to_string v)
  | JObj _ => None
  | JDate t => inject_Z <$> t
  end.
End Conversions.

(** `new Date(t)`: the time value is clipped to +-8.64e15 ms and truncated. *)
Definition new_Date (t : option Q) : jval :=
  JDate (t ≫= λ q,
    if Qle_bool (Qabs q) (inject_Z 8640000000000000)
    then Some (Z.quot (Qnum q) (Z.pos (Qden q)))
    else None).

(** ** Strings *)

(** Strings are byte strings holding UTF-8, so encodeURIComponent escapes
    byte by byte; the characters it keeps are A-Z a-z 0-9 - _ . ! ~ * ' ( ) *)
Definition uri_unreserved (c : ascii) : bool :=
  let n := N_of_ascii c in
  ((65 <=? n) && (n <=? 90) || (97 <=? n) && (n <=? 122)
   || (48 <=? n) && (n <=? 57))%N
  || bool_decide (c ∈ String.list_ascii_of_string "-_.!~*'()").

Definition hex_digit (n : N) : ascii :=
  ascii_of_N (if (n <? 10)%N then 48 + n else 55 + n)%N.

Fixpoint encodeURIComponent (s : string) : string :=
  match s with
  | EmptyString => EmptyString
  | String c rest =>
      if uri_unreserved c then String c (encodeURIComponent rest)
      else
        let n := N_of_ascii c in
        String "%" (String (hex_digit (n / 16)%N)
          (String (hex_digit (n mod 16)%N) (encodeURIComponent rest)))
  end.

(** `encodeURIComponent(s)` for an optional argument: undefined is first
    converted to the string "undefined". *)
Definition encodeURIComponent_opt (s : option string) : string :=
  encodeURIComponent (default "undefined" s).

(** `xs.join(sep)` on an array of strings *)
Definition join (sep : string) (xs : list string) : string := String.concat sep xs.

(** `xs.includes(x)` on an array of strings *)
Definition includes (xs : list string) (x : string) : bool := bool_decide (x ∈ xs).

(** ** The network and the effects of an `async` method *)

(** A call `fetch(url, { method, headers, body })`; `fetch(url)` alone is a
    GET without headers or body. *)
Record request := {
  req_url : jval;
  req_method : string;
  req_headers : list (string * string);
  req_body : option string
}.

Definition GET (url : jval) : request :=
  {| req_url := url; req_method := "GET"; req_headers := []; req_body := None |}.

(** What a method looks at in a response: its status, and the object its
    body parses to ([None]: the body is not JSON text, and parsing it
    throws). The methods cast the parsed body to an interface of object type
    (IGithubUser, IGitlabAuthToken, IOpenIDConfiguration, ...); JSON text
    of another kind is not modelled. *)
Record response := {
  status : Z;
  body : option jobj
}.

(** The answer to the n-th request ever made; [None]: the request fails
    and `fetch` rejects. *)
Definition network := nat → request → option response.

Inductive exn :=
  | Error (message : string)   (* `throw new Error(message)` *)
  | TypeError                  (* reading a property of undefined *)
  | BodyError                  (* raised while parsing a response body *)
  | FetchError.                (* raised by a rejected `fetch` *)

Inductive outcome (A : Type) :=
  | Return (a : A)
  | Throw (e : exn).
Arguments Return {A} a.
Arguments Throw {A} e.

(** The mutable part of a provider instance, `this._config` (undefined
    until assigned), and the requests made so far, oldest first. *)
Record store := {
  _config : option jobj;
  fetched : list request
}.

Definition M (A : Type) : Type := store → outcome A * store.

Definition ret {A} (a : A) : M A := λ st, (Return a, st).
Definition throw {A} (e : exn) : M A := λ st, (Throw e, st).
Definition bind {A B} (m : M A) (k : A → M B) : M B :=
  λ st, match m st with
        | (Return a, st') => k a st'
        | (Throw e, st') => (Throw e, st')
        end.

Notation "'do' x ← m ; k" := (bind m (λ x, k))
  (at level 10, x name, m at level 100, k at level 200, only parsing).

Definition read_config : M (option jobj) := λ st, (Return (_config st), st).
Definition write_config (c : jobj) : M unit :=
  λ st, (Return (), {| _config := Some c; fetched := fetched st |}).

Section Fetch.
Variable net : network.

(** `fetch(...)` of ../shared/simple-fetch, seen from its callers. *)
Definition fetch (req : request) : M response :=
  λ st,
    let st' := {| _config := _config st; fetched := fetched st ++ [req] |} in
    match net (length (fetched st)) req with
    | Some res => (Return res, st')
    | None => (Throw FetchError, st')
    end.

(** `response.json()`, and `JSON.parse(await response.text())` *)
Definition json (res : response) : M jobj :=
  match body res with
  | Some o => ret o
  | None => throw BodyError
  end.
End Fetch.

(** ** Types declared in ./oauth-provider *)

(** `{ redirect_url: string, state?: string }` *)
Record OAuth2ProviderInitInfo := {
  redirect_url : string;
  state : option string
}.

(** `IOAuth2AuthCodeParams | IOAuth2RefreshTokenParams`, told apart by
    `params.type === 'refresh'`. *)
Inductive token_params :=
  | AuthCode (auth_code : string) (redirect_url : string)
  | Refresh (refresh_token : string).

(** `{ client_id, client_secret, scopes? }` and, for GitLab, `host`
    (GitHub's settings declare a `state` that no method reads). *)
Record settings := {
  client_id : string;
  client_secret : string;
  scopes : option (list string);
  host : string
}.

(** `if (!scopes.includes(s)) { scopes.push(s); }` *)
Definition push_missing (s : string) (xs : list string) : list string :=
  if negb (includes xs s) then xs ++ [s] else xs.

(** The body both constructors share after `super(settings)`. Modelled
    from the spec: the base class of ./oauth-provider keeps "no shared
    base-class state beyond constructor-time settings", so `this.settings`
    is the object the constructor was given, updated in place. *)
Definition with_default_scopes (s : settings) : settings :=
  let xs := match scopes s with Some xs => xs | None => [] end in
  let xs := push_missing "email" xs in
  let xs := push_missing "profile" xs in
  let xs := push_missing "openid" xs in
  {| client_id := client_id s; client_secret := client_secret s;
     scopes := Some xs; host := host s |}.

(** `this.settings.scopes.join(' ')` *)
Definition joined_scopes (s : settings) : M string :=
  match scopes s with
  | Some xs => ret (join " " xs)
  | None => throw TypeError
  end.

(** ** github.ts *)

Module Github.
Definition constructor (s : settings) : settings := with_default_scopes s.

Section Methods.
Context `{JsHost}.
Variable net : network.
Variable this_settings : settings.

Definition init (info : OAuth2ProviderInitInfo) : M string :=
  do scope ← joined_scopes this_settings;
  ret ("https://github.com/login/oauth/authorize?scope="
       +:+ encodeURIComponent scope
       +:+ "&client_id=" +:+ client_id this_settings
       +:+ "&state=" +:+ encodeURIComponent_opt (state info)
       +:+ "&redirect_uri=" +:+ encodeURIComponent (redirect_url info)).

Definition getAccessToken (params : token_params) : M jobj :=
  do response ← fetch net {|
    req_url := JStr "https://github.com/login/oauth/access_token";
    req_method := "POST";
    req_headers := [("Content-Type", "application/x-www-form-urlencoded");
                    ("Accept", "application/json")];
    req_body := Some (
      "client_id=" +:+ client_id this_settings
      +:+ "&client_secret=" +:+ client_secret this_settings +:+ "&code="
      +:+ match params with
          | Refresh refresh_token =>
              refresh_token +:+ "&grant_type=refresh_token"
          | AuthCode auth_code redirect_url =>
              auth_code +:+ "&redirect_uri=" +:+ encodeURIComponent redirect_url
          end) |};
  do result ← json response;
  if truthy (get_prop result "error")
  then throw (Error (to_string (get_prop result "error")))
  else ret result.

(** The keys `getUserInfo` leaves out of `other`. *)
Definition skipped : list string := ["sub"; "name"; "picture"; "email_verified"].

Definition other (user : jobj) : jobj :=
  foldl (λ obj key, set_prop obj key (get_prop user key)) ∅
    (List.filter (λ key, negb (includes skipped key)) (Object_keys user)).

Definition profile (user : jobj) : jobj :=
  literal [
    ("id", get_prop user "id");
    ("name", get_prop user "name");
    ("display_name", get_prop user "name");
    ("picture", JArr (if truthy (get_prop user "avatar_url")
                      then [JObj (literal [("url", get_prop user "avatar_url")])]
                      else []));
    ("email", get_prop user "email");
    ("email_verified", JBool true);
    ("other", JObj (other user))
  ].

Definition getUserInfo (access_token : string) : M jobj :=
  do response ← fetch net {|
    req_url := JStr "https://api.github.com/user";
    req_method := "GET";
    req_headers := [("Authorization", "Bearer " +:+ access_token);
                    ("Accept", "application/vnd.github+json");
                    ("user-agent", "node.js")];
    req_body := None |};
  do result ← json response;
  if negb (status response =? 200)%Z
  then throw (Error (to_string (get_prop result "error") +:+ ": "
                     +:+ to_string (get_prop result "error_description")))
  else ret (profile result).
End Methods.
End Github.

(** ** gitlab.ts *)

Module Gitlab.
Definition constructor (s : settings) : settings := with_default_scopes s.

Section Methods.
Context `{JsHost}.
Variable net : network.
Variable this_settings : settings.

(** One call, run to its end without another call in between; the module
    [Discovery] below has the call in its two halves around the `await`. *)
Definition getOpenIDConfig : M jobj :=
  do cached ← read_config;
  match cached with
  | Some config => ret config
  | None =>
      do res ← fetch net (GET (JStr ("https://" +:+ host this_settings
                                       +:+ "/.well-known/openid-configuration")));
      do config ← json res;
      do _ ← write_config config;
      ret config
  end.

Definition init (info : OAuth2ProviderInitInfo) : M string :=
  do config ← getOpenIDConfig;
  do scope ← joined_scopes this_settings;
  ret (to_string (get_prop config "authorization_endpoint")
       +:+ "?response_type=code&access_type=offline&include_granted_scopes=true&client_id="
       +:+ client_id this_settings
       +:+ "&scope=" +:+ encodeURIComponent scope
       +:+ "&redirect_uri=" +:+ encodeURIComponent (redirect_url info)
       +:+ "&state=" +:+ encodeURIComponent_opt (state info)).

(** `new Date(Date.now() + (secondsToExpiry * 1000))`, with the clock
    reading [now] in milliseconds. *)
Definition expiry (now : Z) (secondsToExpiry : jval) : jval :=
  new_Date (to_number secondsToExpiry ≫= λ s, Some (inject_Z now + s * 1000)%Q).

Definition getAccessToken (now : Z) (params : token_params) : M jobj :=
  do config ← getOpenIDConfig;
  do response ← fetch net {|
    req_url := get_prop config "token_endpoint";
    req_method := "POST";
    req_headers := [("Content-Type", "application/x-www-form-urlencoded")];
    req_body := Some (
      "client_id=" +:+ client_id this_settings
      +:+ "&client_secret=" +:+ client_secret this_settings +:+ "&code="
      +:+ match params with
          | Refresh refresh_token =>
              refresh_token +:+ "&grant_type=refresh_token"
          | AuthCode auth_code redirect_url =>
              auth_code +:+ "&grant_type=authorization_code&redirect_uri="
              +:+ encodeURIComponent redirect_url
          end) |};
  do result ← json response;
  if truthy (get_prop result "error")
  then throw (Error (to_string (get_prop result "error")))
  else
    let secondsToExpiry := get_prop result "expires_in" in
    ret (set_prop result "expires" (expiry now secondsToExpiry)).

Definition revokeAccess (access_token : string) : M unit :=
  do config ← getOpenIDConfig;
  do response ← fetch net
    (GET (JStr (to_string (get_prop config "revocation_endpoint")
                +:+ "?token=" +:+ access_token)));
  if negb (status response =? 200)%Z
  then throw (Error ("Revoke failed, error "
                     +:+ Number_toString (inject_Z (status response))))
  else ret ().

(** The keys `getUserInfo` leaves out of `other`. *)
Definition skipped : list string :=
  ["sub"; "name"; "picture"; "email"; "email_verified"].

Definition other (user : jobj) : jobj :=
  foldl (λ obj key, set_prop obj key (get_prop user key)) ∅
    (List.filter (λ key, negb (includes skipped key)) (Object_keys user)).

Definition profile (user : jobj) : jobj :=
  literal [
    ("id", get_prop user "sub");
    ("name", get_prop user "name");
    ("display_name", js_or (get_prop user "nickname") (get_prop user "name"));
    ("picture", JArr (if truthy (get_prop user "picture")
                      then [JObj (literal [("url", get_prop user "picture")])]
                      else []));
    ("email", get_prop user "email");
    ("email_verified", get_prop user "email_verified");
    ("other", JObj (other user))
  ].

Definition getUserInfo (access_token : string) : M jobj :=
  do config ← getOpenIDConfig;
  do response ← fetch net {|
    req_url := get_prop config "userinfo_endpoint";
    req_method := "GET";
    req_headers := [("Authorization", "Bearer " +:+ access_token)];
    req_body := None |};
  do result ← json response;
  if negb (status response =? 200)%Z
  then throw (Error (to_string (get_prop result "error") +:+ ": "
                     +:+ to_string (get_prop result "error_description")))
  else ret (profile result).
End Methods.
End Gitlab.

(** ** index.ts: the registry of provider classes *)

Inductive provider_class :=
  | DropboxAuthProvider
  | FacebookAuthProvider
  | GoogleAuthProvider
  | InstagramAuthProvider
  | SpotifyAuthProvider
  | GitlabAuthProvider
  | GithubAuthProvider.

(** src/oauth-providers/index.ts *)
Module Index.
Definition oAuth2Providers : gmap string provider_class :=
  list_to_map [
    ("dropbox", DropboxAuthProvider);
    ("facebook", FacebookAuthProvider);
    ("google", GoogleAuthProvider);
    ("instagram", InstagramAuthProvider);
    ("spotify", SpotifyAuthProvider);
    ("gitlab", GitlabAuthProvider)
  ].
End Index.

(** The index.ts that also imports ./github. *)
Module IndexWithGithub.
Definition oAuth2Providers : gmap string provider_class :=
  list_to_map [
    ("dropbox", DropboxAuthProvider);
    ("facebook", FacebookAuthProvider);
    ("google", GoogleAuthProvider);
    ("instagram", InstagramAuthProvider);
    ("spotify", SpotifyAuthProvider);
    ("gitlab", GitlabAuthProvider);
    ("github", GithubAuthProvider)
  ].
End IndexWithGithub.

(** The names of all provider variants of the repository. *)
Definition provider_names : list (string * provider_class) := [
  ("dropbox", DropboxAuthProvider);
  ("facebook", FacebookAuthProvider);
  ("google", GoogleAuthProvider);
  ("instagram", InstagramAuthProvider);
  ("spotify", SpotifyAuthProvider);
  ("gitlab", GitlabAuthProvider);
  ("github", GithubAuthProvider)
].

(** ** routes/meta-info.js *)

Module MetaInfo.
(** `req.user`, of which the route reads `uid`. *)
Record DbUserAccountDetails := { uid : string }.

Record Request := { user : option DbUserAccountDetails }.

(** Everything the handler reads from its surroundings at one request:
    package.json, the clock, `process` and `os`. *)
Record Environment := {
  meta_version : string;
  Date_now : Z;
  process_pid : Z;
  db_name : string;
  os_platform : string;
  os_arch : string;
  os_release : string;
  os_hostname : string;
  os_uptime : Q;
  os_loadavg : list Q;
  os_totalmem : Q;
  os_freemem : Q;
  mem_arrayBuffers : Q;
  mem_external : Q;
  mem_heapTotal : Q;
  mem_heapUsed : Q;
  mem_rss : Q;
  os_cpus : jval;
  os_networkInterfaces : jval
}.

(** Over the rationals. The code computes in binary64, so what it prints
    can differ from what these give where binary64 rounds; of numberToTime
    and numberToByteSize only the place of their results in adminInfo is
    used below. *)
Definition Math_floor (x : Q) : Z := Qfloor x.
Definition Math_round (x : Q) : Z := Qfloor (x + (1 # 2))%Q.

Section Handler.
Context `{JsHost}.

Definition numberToByteSize (number : Q) : jval :=
  JStr (Number_toString
          (inject_Z (Math_round ((number / 1024 / 1024) * 100)%Q) / 100)%Q
        +:+ "MB").

Definition sPerMinute : Z := 60.
Definition sPerHour : Z := sPerMinute * 60.
Definition sPerDay : Z := sPerHour * 24.

Definition numberToTime (number : Q) : jval :=
  let days := Math_floor (number / inject_Z sPerDay)%Q in
  let number := (number - inject_Z (sPerDay * days))%Q in
  let hours := Math_floor (number / inject_Z sPerHour)%Q in
  let number := (number - inject_Z (hours * sPerHour))%Q in
  let minutes := Math_floor (number / inject_Z sPerMinute)%Q in
  let number := (number - inject_Z (minutes * sPerMinute))%Q in
  let seconds := Math_floor number in
  JStr (Number_toString (inject_Z days) +:+ "d"
        +:+ Number_toString (inject_Z hours) +:+ "h"
        +:+ Number_toString (inject_Z minutes) +:+ "m"
        +:+ Number_toString (inject_Z seconds) +:+ "s").

Definition adminInfo (env : Environment) : jobj :=
  literal [
    ("dbname", JStr (db_name env));
    ("platform", JStr (os_platform env));
    ("arch", JStr (os_arch env));
    ("release", JStr (os_release env));
    ("host", JStr (os_hostname env));
    ("uptime", numberToTime (os_uptime env));
    ("load", JArr (JNum <$> os_loadavg env));
    ("mem", JObj (literal [
       ("total", numberToByteSize (os_totalmem env));
       ("free", numberToByteSize (os_freemem env));
       ("process", JObj (literal [
          ("arrayBuffers", numberToByteSize (mem_arrayBuffers env));
          ("external", numberToByteSize (mem_external env));
          ("heapTotal", numberToByteSize (mem_heapTotal env));
          ("heapUsed", numberToByteSize (mem_heapUsed env));
          ("residentSet", numberToByteSize (mem_rss env))
       ]))
    ]));
    ("cpus", os_cpus env);
    ("network", os_networkInterfaces env)
  ].


(** The handler; its result is what it passes to `res.send`. *)
Definition handler (env : Environment) (req : Request) : jobj :=
  let info := literal [
    ("version", JStr (meta_version env));
    ("time", JNum (inject_Z (Date_now env)));
    ("process", JNum (inject_Z (process_pid env)))
  ] in
  if match user req with
     | Some u => String.eqb (uid u) "admin"
     | None => false
     end
  then Object_assign info (adminInfo env)
  else info.

(** `addRoute(env)` registers the handler for GET under this path. *)
Definition addRoute (env : Environment) : string * (Request → jobj) :=
  ("/info/" +:+ db_name env, handler env).
End Handler.
End MetaInfo.

(** ** Notions the properties are stated with *)

(** The fields of the normalized profile (FederatedProfile). *)
Definition normalized_fields : list string :=
  ["id"; "name"; "display_name"; "picture"; "email"; "email_verified"; "other"].

(** A record `{ url }` *)
Definition is_url_record (v : jval) : bool :=
  match v with
  | JObj o => bool_decide (dom o = {["url"]})
  | _ => false
  end.

(** `{ id, name, display_name, picture: [{url}], email, email_verified,
    other: map<string,any> }` *)
Definition FederatedProfile (p : jobj) : bool :=
  bool_decide (dom p = list_to_set normalized_fields)
  && match p !! "picture" with
     | Some (JArr pics) => forallb is_url_record pics
     | _ => false
     end
  && match p !! "other" with
     | Some (JObj _) => true
     | _ => false
     end.

(** A payload field is absent or empty: the payload has no such key, or the
    value it holds counts as false (undefined, null, false, 0, the empty
    string). *)
Definition absent_or_empty (payload : jobj) (k : string) : bool :=
  match payload !! k with
  | None => true
  | Some v => negb (truthy v)
  end.

(** The answer the network gave to the latest request logged in [st]. *)
Definition last_answer (net : network) (st : store) : option response :=
  last (fetched st) ≫= net (length (fetched st) - 1).

(** The calls a client can make on a GitLab provider instance, and the store
    they leave behind. *)
Inductive gitlab_call :=
  | CallGetOpenIDConfig
  | CallInit (info : OAuth2ProviderInitInfo)
  | CallGetAccessToken (now : Z) (params : token_params)
  | CallRevokeAccess (access_token : string)
  | CallGetUserInfo (access_token : string).

Definition run_call `{JsHost} (net : network) (s : settings)
    (c : gitlab_call) (st : store) : store :=
  match c with
  | CallGetOpenIDConfig => (Gitlab.getOpenIDConfig net s st).2
  | CallInit info => (Gitlab.init net s info st).2
  | CallGetAccessToken now params => (Gitlab.getAccessToken net s now params st).2
  | CallRevokeAccess access_token => (Gitlab.revokeAccess net s access_token st).2
  | CallGetUserInfo access_token => (Gitlab.getUserInfo net s access_token st).2
  end.

Definition run_calls `{JsHost} (net : network) (s : settings)
    (cs : list gitlab_call) (st : store) : store :=
  foldl (λ st c, run_call net s c st) st cs.

(** How often [x] occurs in [xs]. *)
Definition occurrences (x : string) (xs : list string) : nat :=
  length (List.filter (String.eqb x) xs).

(** ** Sample inputs *)

(** A host to run examples on: it prints the integers in decimal. The
    examples print no other number, convert no string to a number and print
    no date. *)
Definition sample_host : JsHost := {|
  Number_toString q := pretty (Qfloor q);
  String_toNumber _ := None;
  Date_toString _ := "Invalid Date"
|}.

(** A provider instance that has fetched nothing yet. *)
Definition fresh : store := {| _config := None; fetched := [] |}.

Definition sample_settings : settings :=
  {| client_id := "app"; client_secret := "s3cret";
     scopes := Some ["email"; "profile"; "openid"]; host := "gitlab.example.org" |}.

Definition sample_info : OAuth2ProviderInitInfo :=
  {| redirect_url := "https://db.example.org/cb"; state := Some "xyz" |}.

Definition github_user : jobj :=
  literal [
    ("id", JStr "42");
    ("login", JStr "mona");
    ("name", JStr "Mona");
    ("avatar_url", JStr "https://avatars.example.org/u/42");
    ("email", JStr "mona@example.org")
  ].

(** The same user, with two more keys in the payload. *)
Definition github_user_openid : jobj :=
  set_prop (set_prop github_user "email_verified" (JBool false)) "sub" (JStr "s-42").

Definition gitlab_user : jobj :=
  literal [
    ("sub", JStr "7");
    ("name", JStr "Ada");
    ("nickname", JStr "ada");
    ("email", JStr "ada@example.org");
    ("email_verified", JBool true);
    ("groups", JArr [JStr "core"])
  ].

Definition error_payload : jobj :=
  literal [
    ("error", JStr "bad_verification_code");
    ("error_description", JStr "The code passed is incorrect or expired.")
  ].

Definition discovery (auth : string) : jobj :=
  literal [
    ("authorization_endpoint", JStr auth);
    ("token_endpoint", JStr "https://gitlab.example.org/oauth/token");
    ("userinfo_endpoint", JStr "https://gitlab.example.org/oauth/userinfo")
  ].

(** A store whose `_config` holds a discovery document. *)
Definition discovered : store :=
  {| _config := Some (discovery "https://gitlab.example.org/oauth/authorize");
     fetched := [] |}.

(** A network that answers every request with the same status and body. *)
Definition always (code : Z) (o : jobj) : network :=
  λ _ _, Some {| status := code; body := Some o |}.

(** A network that serves a discovery document first and a body afterwards. *)
Definition gitlab_net (auth : string) (code : Z) (o : jobj) : network :=
  λ n _, Some {| status := code;
                 body := Some (if (n =? 0)%nat then discovery auth else o) |}.

(** ** getOpenIDConfig, step by step

    [Gitlab.getOpenIDConfig] runs one call to its end before anything else
    happens on the instance, and its store holds an object or nothing. The
    source suspends at `await fetch(...)`, between the test of
    `this._config` and the assignment, and assigns whatever the body parses
    to. Here the two halves of a call are steps of their own, calls can
    start while others await their fetch, and `this._config` is any
    value. *)

Module Discovery.
(** `this._config` (undefined until assigned) and the requests handed to
    `fetch` so far. *)
Record instance := {
  this_config : jval;
  requested : list request
}.

(** How an awaited `fetch(...).then(res => res.json())` settles. *)
Inductive arrival :=
  | Rejected               (* the fetch failed *)
  | Unparsable             (* the body is not JSON *)
  | Parsed (doc : jval).   (* the value the body parses to *)

Section Steps.
Variable this_settings : settings.

(** A call up to its `await`: it returns at once what `this._config` holds
    if that counts as true, and hands its request to `fetch` otherwise. *)
Definition before_await (i : instance) : option jval * instance :=
  if truthy (this_config i) then (Some (this_config i), i)
  else (None,
        {| this_config := this_config i;
           requested := requested i
             ++ [GET (JStr ("https://" +:+ host this_settings
                            +:+ "/.well-known/openid-configuration"))] |}).

(** The rest of the call, once its fetch has settled:
    `this._config = <doc>; return this._config;`, or the error. *)
Definition after_await (a : arrival) (i : instance) : outcome jval * instance :=
  match a with
  | Parsed doc => (Return doc, {| this_config := doc; requested := requested i |})
  | Unparsable => (Throw BodyError, i)
  | Rejected => (Throw FetchError, i)
  end.

(** What can happen next on an instance: a call of getOpenIDConfig starts,
    or the fetch of a call that awaits one settles. *)
Inductive event :=
  | Call
  | Arrive (a : arrival).

Definition is_call (e : event) : bool :=
  match e with
  | Call => true
  | Arrive _ => false
  end.

(** The instance, the number of calls awaiting their fetch, and what the
    calls that ended have returned or thrown, in the order they ended. *)
Record progress := {
  inst : instance;
  awaiting : nat;
  results : list (outcome jval)
}.

Definition step (p : progress) (e : event) : progress :=
  match e with
  | Call =>
      match before_await (inst p) with
      | (Some c, i) =>
          {| inst := i; awaiting := awaiting p; results := results p ++ [Return c] |}
      | (None, i) =>
          {| inst := i; awaiting := S (awaiting p); results := results p |}
      end
  | Arrive a =>
      match awaiting p with
      | O => p   (* no call awaits a fetch: nothing settles *)
      | S n =>
          let '(out, i) := after_await a (inst p) in
          {| inst := i; awaiting := n; results := results p ++ [out] |}
      end
  end.

Definition schedule (es : list event) (p : progress) : progress := foldl step p es.
End Steps.

(** A new provider instance. *)
Definition new : progress :=
  {| inst := {| this_config := JUndefined; requested := [] |};
     awaiting := 0; results := [] |}.

(** The store of [Gitlab.getOpenIDConfig] as an instance, the answer of the
    network as an arrival, and a result with its object as a value. *)
Definition instance_of (st : store) : instance :=
  {| this_config := match _config st with Some c => JObj c | None => JUndefined end;
     requested := fetched st |}.

Definition arrival_of (answer : option response) : arrival :=
  match answer with
  | None => Rejected
  | Some res => match body res with Some o => Parsed (JObj o) | None => Unparsable end
  end.

Definition as_value (out : outcome jobj) : outcome jval :=
  match out with
  | Return o => Return (JObj o)
  | Throw e => Throw e
  end.
End Discovery.

(** ** index.ts: what each text exports

    `export { XAuthProvider, ... } from './x'`, line by line. *)

Definition Index_exported : list provider_class := [
  DropboxAuthProvider; FacebookAuthProvider; GoogleAuthProvider;
  InstagramAuthProvider; SpotifyAuthProvider; GitlabAuthProvider
].

Definition IndexWithGithub_exported : list provider_class := [
  DropboxAuthProvider; FacebookAuthProvider; GoogleAuthProvider;
  InstagramAuthProvider; SpotifyAuthProvider; GitlabAuthProvider;
  GithubAuthProvider
].

(** Every exported variant can be selected in the registry under its
    provider name. *)
Definition selectable (registry : gmap string provider_class)
    (exported : list provider_class) : Prop :=
  Forall (λ variant,
            Exists (λ entry, entry.2 = variant ∧ registry !! entry.1 = Some variant)
              provider_names)
    exported.

(** Unfolds the monad, so that a method shows its steps. *)
Ltac run :=
  unfold bind, fetch, json, ret, throw, read_config, write_config in *; simpl in *.

(** * Properties *)

(** ** Objects *)

Lemma elem_of_Object_keys (o : jobj) (k : string) :
  k ∈ Object_keys o ↔ is_Some (o !! k).
Proof.
  unfold Object_keys. rewrite list_elem_of_fmap. split.
  - intros [[k' v] [-> Hin]]. apply elem_of_map_to_list in Hin. eauto.
  - intros [v Hv]. exists (k, v). split; [done|]. by apply elem_of_map_to_list.
Qed.

Lemma set_prop_lookup (o : jobj) (k : string) (v : jval) (k' : string) :
  set_prop o k v !! k' =
  if bool_decide (k = k' ∧ k ≠ "__proto__") then Some v else o !! k'.
Proof.
  unfold set_prop. destruct (String.eqb_spec k "__proto__") as [->|Hne].
  - rewrite bool_decide_eq_false_2; [done|]. by intros [_ ?].
  - rewrite lookup_insert.
    destruct (decide (k = k')) as [->|Hkk'].
    + by rewrite bool_decide_eq_true_2.
    + rewrite bool_decide_eq_false_2; [done|]. by intros [? _].
Qed.

Lemma get_prop_lookup (o : jobj) (k : string) (v : jval) :
  o !! k = Some v → get_prop o k = v.
Proof. unfold get_prop. by intros ->. Qed.

(** Copying the properties named in [keys] from [user] into [acc]. *)
Lemma copy_props_lookup (user : jobj) (keys : list string) (acc : jobj) (k : string) :
  foldl (λ obj key, set_prop obj key (get_prop user key)) acc keys !! k =
  if bool_decide (k ∈ keys ∧ k ≠ "__proto__") then Some (get_prop user k)
  else acc !! k.
Proof.
  revert acc. induction keys as [|a keys IH]; intros acc; cbn [foldl].
  - case_bool_decide as Hk; [|done]. destruct Hk as [Hin _]. by apply elem_of_nil in Hin.
  - rewrite IH, set_prop_lookup.
    destruct (decide (k ∈ keys ∧ k ≠ "__proto__")) as [Hk|Hk].
    + rewrite (bool_decide_eq_true_2 _ Hk), bool_decide_eq_true_2; [done|].
      destruct Hk as [Hin Hp]. split; [by apply elem_of_cons; right|done].
    + rewrite (bool_decide_eq_false_2 _ Hk).
      destruct (decide (a = k ∧ a ≠ "__proto__")) as [[-> Ha]|Ha].
      * rewrite !bool_decide_eq_true_2; [done| |done].
        split; [by apply elem_of_cons; left|done].
      * rewrite (bool_decide_eq_false_2 _ Ha), bool_decide_eq_false_2; [done|].
        intros [Hin Hp]. apply elem_of_cons in Hin as [->|Hin]; [by apply Ha|by apply Hk].
Qed.

(** What `Object.keys(user).filter(...).reduce(...)` builds: every property
    of [user] whose name is neither skipped nor `__proto__`. *)
Lemma filtered_copy_lookup (skip : list string) (user : jobj) (k : string) :
  foldl (λ obj key, set_prop obj key (get_prop user key)) ∅
    (List.filter (λ key, negb (includes skip key)) (Object_keys user)) !! k =
  if bool_decide (k ∈ skip ∨ k = "__proto__") then None else user !! k.
Proof.
  rewrite copy_props_lookup, lookup_empty.
  assert (k ∈ List.filter (λ key, negb (includes skip key)) (Object_keys user)
          ↔ is_Some (user !! k) ∧ k ∉ skip) as Hin.
  { rewrite list_elem_of_In, filter_In, <- list_elem_of_In, elem_of_Object_keys.
    unfold includes. by rewrite negb_true_iff, bool_decide_eq_false. }
  destruct (decide (k ∈ skip ∨ k = "__proto__")) as [Hs|Hs].
  - rewrite (bool_decide_eq_true_2 _ Hs), bool_decide_eq_false_2; [done|].
    rewrite Hin. tauto.
  - rewrite (bool_decide_eq_false_2 _ Hs).
    destruct (user !! k) as [v|] eqn:Hk.
    + rewrite bool_decide_eq_true_2; [by rewrite (get_prop_lookup _ _ _ Hk)|].
      rewrite Hin. split; [split; [by eexists|]|]; intros ?; apply Hs; auto.
    + rewrite bool_decide_eq_false_2; [done|].
      rewrite Hin. intros [[Hsome _] _]. by destruct Hsome.
Qed.

Lemma Github_other_lookup (user : jobj) (k : string) :
  Github.other user !! k =
  if bool_decide (k ∈ Github.skipped ∨ k = "__proto__") then None else user !! k.
Proof. apply filtered_copy_lookup. Qed.

Lemma Gitlab_other_lookup (user : jobj) (k : string) :
  Gitlab.other user !! k =
  if bool_decide (k ∈ Gitlab.skipped ∨ k = "__proto__") then None else user !! k.
Proof. apply filtered_copy_lookup. Qed.

(** ** Running a method *)

Lemma last_answer_snoc (net : network) (c : option jobj) (l : list request) (req : request) :
  last_answer net {| _config := c; fetched := l ++ [req] |} = net (length l) req.
Proof.
  unfold last_answer; simpl.
  rewrite last_snoc, length_app; simpl.
  by replace (length l + 1 - 1) with (length l) by lia.
Qed.

(** A profile comes from a 200 response whose body is the user. *)
Lemma Github_getUserInfo_Return `{JsHost} (net : network) (token : string)
    (st st' : store) (p : jobj) :
  Github.getUserInfo net token st = (Return p, st') →
  ∃ res user, last_answer net st' = Some res ∧ body res = Some user
              ∧ status res = 200%Z ∧ p = Github.profile user.
Proof.
  unfold Github.getUserInfo. run.
  destruct (net _ _) as [res|] eqn:Hnet; [|done].
  destruct (body res) as [user|] eqn:Hbody; [|done].
  destruct (status res =? 200)%Z eqn:Hst; simpl; [|done].
  intros [= <- <-]. exists res, user.
  rewrite last_answer_snoc. by apply Z.eqb_eq in Hst.
Qed.

Lemma Gitlab_getOpenIDConfig_cached (net : network) (s : settings)
    (st : store) (c : jobj) :
  _config st = Some c → Gitlab.getOpenIDConfig net s st = (Return c, st).
Proof. unfold Gitlab.getOpenIDConfig. run. by intros ->. Qed.

Lemma Gitlab_getOpenIDConfig_Return (net : network) (s : settings)
    (st st1 : store) (config : jobj) :
  Gitlab.getOpenIDConfig net s st = (Return config, st1) →
  _config st1 = Some config.
Proof.
  unfold Gitlab.getOpenIDConfig. run.
  destruct (_config st) as [c|] eqn:Hc.
  - by intros [= <- <-].
  - destruct (net _ _) as [res|]; [|done].
    destruct (body res) as [c|]; [|done].
    by intros [= <- <-].
Qed.

Lemma Gitlab_getUserInfo_Return `{JsHost} (net : network) (s : settings)
    (token : string) (st st' : store) (p : jobj) :
  Gitlab.getUserInfo net s token st = (Return p, st') →
  ∃ res user, last_answer net st' = Some res ∧ body res = Some user
              ∧ status res = 200%Z ∧ p = Gitlab.profile user.
Proof.
  unfold Gitlab.getUserInfo, Gitlab.getOpenIDConfig. run.
  destruct (_config st) as [c|]; simpl.
  - destruct (net _ _) as [res|] eqn:Hnet; [|done].
    destruct (body res) as [user|] eqn:Hbody; [|done].
    destruct (status res =? 200)%Z eqn:Hst; simpl; [|done].
    intros [= <- <-]. exists res, user.
    rewrite last_answer_snoc. by apply Z.eqb_eq in Hst.
  - destruct (net _ _) as [res0|]; [|done].
    destruct (body res0) as [c|]; [|done]. simpl.
    destruct (net _ _) as [res|] eqn:Hnet; [|done].
    destruct (body res) as [user|] eqn:Hbody; [|done].
    destruct (status res =? 200)%Z eqn:Hst; simpl; [|done].
    intros [= <- <-]. exists res, user.
    rewrite last_answer_snoc. by apply Z.eqb_eq in Hst.
Qed.

Lemma Github_profile_shape (user : jobj) : FederatedProfile (Github.profile user) = true.
Proof.
  unfold FederatedProfile, Github.profile.
  rewrite bool_decide_eq_true_2 by reflexivity.
  change (literal _ !! "picture") with
    (Some (JArr (if truthy (get_prop user "avatar_url")
                 then [JObj (literal [("url", get_prop user "avatar_url")])]
                 else []))).
  change (literal _ !! "other") with (Some (JObj (Github.other user))).
  by destruct (truthy _).
Qed.

Lemma Gitlab_profile_shape (user : jobj) : FederatedProfile (Gitlab.profile user) = true.
Proof.
  unfold FederatedProfile, Gitlab.profile.
  rewrite bool_decide_eq_true_2 by reflexivity.
  change (literal _ !! "picture") with
    (Some (JArr (if truthy (get_prop user "picture")
                 then [JObj (literal [("url", get_prop user "picture")])]
                 else []))).
  change (literal _ !! "other") with (Some (JObj (Gitlab.other user))).
  by destruct (truthy _).
Qed.

(** C1. Whatever the payload, a profile returned by getUserInfo of the
    GitHub or the GitLab provider has exactly the fields id, name,
    display_name, picture, email, email_verified and other, its picture is a
    list of `{url}` records and its other is an object. *)
Theorem getUserInfo_FederatedProfile `{JsHost} (net : network) (s : settings)
    (token : string) (st st' : store) (p : jobj) :
  Github.getUserInfo net token st = (Return p, st')
  ∨ Gitlab.getUserInfo net s token st = (Return p, st') →
  FederatedProfile p = true.
Proof.
  intros [Hrun|Hrun].
  - apply Github_getUserInfo_Return in Hrun as (res & user & _ & _ & _ & ->).
    apply Github_profile_shape.
  - apply Gitlab_getUserInfo_Return in Hrun as (res & user & _ & _ & _ & ->).
    apply Gitlab_profile_shape.
Qed.

Lemma getUserInfo_FederatedProfile_witness :
  FederatedProfile (Github.profile github_user) = true
  ∧ FederatedProfile (Gitlab.profile gitlab_user) = true.
Proof.
  split.
  - apply (getUserInfo_FederatedProfile (H := sample_host) (always 200 github_user)
             sample_settings "token" fresh
             {| _config := None;
                fetched := [{| req_url := JStr "https://api.github.com/user";
                               req_method := "GET";
                               req_headers := [("Authorization", "Bearer token");
                                               ("Accept", "application/vnd.github+json");
                                               ("user-agent", "node.js")];
                               req_body := None |}] |}).
    left. reflexivity.
  - apply (getUserInfo_FederatedProfile (H := sample_host)
             (always 200 gitlab_user) sample_settings "token" discovered
             (Gitlab.getUserInfo (H := sample_host) (always 200 gitlab_user)
                sample_settings "token" discovered).2).
    right. reflexivity.
Defined.

(** C8. A profile returned by GitHub's getUserInfo has email_verified set to
    true, whatever the payload holds. *)
Theorem Github_email_verified `{JsHost} (net : network) (token : string)
    (st st' : store) (p : jobj) :
  Github.getUserInfo net token st = (Return p, st') →
  p !! "email_verified" = Some (JBool true).
Proof.
  intros Hrun.
  by apply Github_getUserInfo_Return in Hrun as (res & user & _ & _ & _ & ->).
Qed.

Lemma Github_email_verified_witness :
  github_user_openid !! "email_verified" = Some (JBool false)
  ∧ Github.profile github_user_openid !! "email_verified" = Some (JBool true).
Proof.
  split; [reflexivity|].
  apply (Github_email_verified (H := sample_host) (always 200 github_user_openid)
           "token" fresh
           (Github.getUserInfo (H := sample_host) (always 200 github_user_openid)
              "token" fresh).2).
  reflexivity.
Defined.

Lemma profile_picture (user : jobj) (k : string) :
  JArr (if truthy (get_prop user k)
        then [JObj (literal [("url", get_prop user k)])] else []) =
  JArr (if absent_or_empty user k then []
        else [JObj {["url" := get_prop user k]}]).
Proof.
  unfold absent_or_empty, get_prop.
  destruct (user !! k) as [v|]; simpl; [|done].
  by destruct (truthy v).
Qed.

(** C5. In the profile returned by getUserInfo, picture is the empty list
    when the payload's avatar field (GitHub: avatar_url, GitLab: picture) is
    absent or empty, and the one-element list holding `{url: <that value>}`
    otherwise. *)
Theorem getUserInfo_picture `{JsHost} (net : network) (s : settings)
    (token : string) (st st' : store) (p : jobj) (res : response) (user : jobj) :
  last_answer net st' = Some res →
  body res = Some user →
  (Github.getUserInfo net token st = (Return p, st') →
   p !! "picture" =
     Some (JArr (if absent_or_empty user "avatar_url" then []
                 else [JObj {["url" := get_prop user "avatar_url"]}])))
  ∧ (Gitlab.getUserInfo net s token st = (Return p, st') →
     p !! "picture" =
       Some (JArr (if absent_or_empty user "picture" then []
                   else [JObj {["url" := get_prop user "picture"]}]))).
Proof.
  intros Hlast Hbody. split; intros Hrun.
  - apply Github_getUserInfo_Return in Hrun as (res' & user' & Hlast' & Hbody' & _ & ->).
    rewrite Hlast in Hlast'. injection Hlast' as <-.
    rewrite Hbody in Hbody'. injection Hbody' as <-.
    rewrite <- profile_picture. reflexivity.
  - apply Gitlab_getUserInfo_Return in Hrun as (res' & user' & Hlast' & Hbody' & _ & ->).
    rewrite Hlast in Hlast'. injection Hlast' as <-.
    rewrite Hbody in Hbody'. injection Hbody' as <-.
    rewrite <- profile_picture. reflexivity.
Qed.

Lemma getUserInfo_picture_witness :
  Github.profile github_user !! "picture"
    = Some (JArr [JObj {["url" := JStr "https://avatars.example.org/u/42"]}])
  ∧ Gitlab.profile gitlab_user !! "picture" = Some (JArr []).
Proof.
  split.
  - destruct (getUserInfo_picture (H := sample_host) (always 200 github_user)
                sample_settings "token" fresh
                (Github.getUserInfo (H := sample_host) (always 200 github_user) "token" fresh).2
                (Github.profile github_user)
                {| status := 200; body := Some github_user |} github_user)
      as (Hgithub & _); [reflexivity..|].
    apply Hgithub. reflexivity.
  - destruct (getUserInfo_picture (H := sample_host) (always 200 gitlab_user)
                sample_settings "token" discovered
                (Gitlab.getUserInfo (H := sample_host) (always 200 gitlab_user)
                   sample_settings "token" discovered).2
                (Gitlab.profile gitlab_user)
                {| status := 200; body := Some gitlab_user |} gitlab_user)
      as (_ & Hgitlab); [reflexivity..|].
    apply Hgitlab. reflexivity.
Defined.

(** C2, on the code. For the GitHub payload [github_user], `other` holds
    id, avatar_url and email, which the profile maps to id, picture and
    email; with sub and email_verified added to the payload, which the
    profile maps nowhere, `other` stays the same. For the GitLab payload
    [gitlab_user], `other` holds nickname, which the profile maps to
    display_name. *)
Theorem other_at_sample_users :
  (Github.getUserInfo (H := sample_host) (always 200 github_user) "token" fresh).1
    = Return (Github.profile github_user)
  ∧ Github.other github_user =
      literal [("id", JStr "42");
               ("login", JStr "mona");
               ("avatar_url", JStr "https://avatars.example.org/u/42");
               ("email", JStr "mona@example.org")]
  ∧ Github.other github_user_openid = Github.other github_user
  ∧ (Gitlab.getUserInfo (H := sample_host) (always 200 gitlab_user)
       sample_settings "token" discovered).1
    = Return (Gitlab.profile gitlab_user)
  ∧ Gitlab.profile gitlab_user !! "display_name" = Some (JStr "ada")
  ∧ Gitlab.other gitlab_user =
      literal [("nickname", JStr "ada"); ("groups", JArr [JStr "core"])].
Proof. repeat split; vm_compute; reflexivity. Qed.

(** ** Failures of the token exchange and of the profile fetch *)

Lemma Github_getAccessToken_outcome `{JsHost} (net : network) (s : settings)
    (params : token_params) (st st' : store) (out : outcome jobj)
    (res : response) (o : jobj) :
  Github.getAccessToken net s params st = (out, st') →
  last_answer net st' = Some res → body res = Some o →
  out = if truthy (get_prop o "error")
        then Throw (Error (to_string (get_prop o "error")))
        else Return o.
Proof.
  unfold Github.getAccessToken. run.
  destruct (net _ _) as [res'|] eqn:Hnet.
  - destruct (body res') as [o'|] eqn:Hbody'.
    + destruct (truthy (get_prop o' "error")) eqn:Herr; simpl;
        intros [= <- <-]; rewrite last_answer_snoc, Hnet;
        intros [= ->]; rewrite Hbody'; intros [= ->]; by rewrite Herr.
    + intros [= <- <-]. rewrite last_answer_snoc, Hnet. intros [= ->]. congruence.
  - intros [= <- <-]. rewrite last_answer_snoc, Hnet. done.
Qed.

Lemma Github_getUserInfo_outcome `{JsHost} (net : network) (token : string)
    (st st' : store) (out : outcome jobj) (res : response) (o : jobj) :
  Github.getUserInfo net token st = (out, st') →
  last_answer net st' = Some res → body res = Some o →
  out = if (status res =? 200)%Z
        then Return (Github.profile o)
        else Throw (Error (to_string (get_prop o "error") +:+ ": "
                           +:+ to_string (get_prop o "error_description"))).
Proof.
  unfold Github.getUserInfo. run.
  destruct (net _ _) as [res'|] eqn:Hnet.
  - destruct (body res') as [o'|] eqn:Hbody'.
    + destruct (status res' =? 200)%Z eqn:Hst; simpl;
        intros [= <- <-]; rewrite last_answer_snoc, Hnet;
        intros [= ->]; rewrite Hbody'; intros [= ->]; by rewrite Hst.
    + intros [= <- <-]. rewrite last_answer_snoc, Hnet. intros [= ->]. congruence.
  - intros [= <- <-]. rewrite last_answer_snoc, Hnet. done.
Qed.

(** What `getOpenIDConfig` leaves behind when it does not return. *)
Lemma Gitlab_getOpenIDConfig_Throw (net : network) (s : settings)
    (st st' : store) (e : exn) :
  Gitlab.getOpenIDConfig net s st = (Throw e, st') →
  match last_answer net st' with
  | Some res => body res = None
  | None => True
  end.
Proof.
  unfold Gitlab.getOpenIDConfig. run.
  destruct (_config st) as [c|]; [done|].
  destruct (net _ _) as [res|] eqn:Hnet.
  - destruct (body res) as [c|] eqn:Hbody; simpl; [done|].
    intros [= <- <-]. by rewrite last_answer_snoc, Hnet.
  - intros [= <- <-]. by rewrite last_answer_snoc, Hnet.
Qed.

Lemma Gitlab_getAccessToken_outcome `{JsHost} (net : network) (s : settings)
    (now : Z) (params : token_params) (st st' : store) (out : outcome jobj)
    (res : response) (o : jobj) :
  Gitlab.getAccessToken net s now params st = (out, st') →
  last_answer net st' = Some res → body res = Some o →
  out = if truthy (get_prop o "error")
        then Throw (Error (to_string (get_prop o "error")))
        else Return (set_prop o "expires" (Gitlab.expiry now (get_prop o "expires_in"))).
Proof.
  unfold Gitlab.getAccessToken. unfold bind at 1.
  destruct (Gitlab.getOpenIDConfig net s st) as [[config|e] st1] eqn:Hcfg.
  - clear Hcfg. run.
    destruct (net _ _) as [res'|] eqn:Hnet.
    + destruct (body res') as [o'|] eqn:Hbody'.
      * destruct (truthy (get_prop o' "error")) eqn:Herr; simpl;
          intros [= <- <-]; rewrite last_answer_snoc, Hnet;
          intros [= ->]; rewrite Hbody'; intros [= ->]; by rewrite Herr.
      * intros [= <- <-]. rewrite last_answer_snoc, Hnet. intros [= ->]. congruence.
    + intros [= <- <-]. rewrite last_answer_snoc, Hnet. done.
  - intros [= <- <-] Hlast Hbody.
    apply Gitlab_getOpenIDConfig_Throw in Hcfg. rewrite Hlast in Hcfg. congruence.
Qed.

Lemma Gitlab_getUserInfo_outcome `{JsHost} (net : network) (s : settings)
    (token : string) (st st' : store) (out : outcome jobj)
    (res : response) (o : jobj) :
  Gitlab.getUserInfo net s token st = (out, st') →
  last_answer net st' = Some res → body res = Some o →
  out = if (status res =? 200)%Z
        then Return (Gitlab.profile o)
        else Throw (Error (to_string (get_prop o "error") +:+ ": "
                           +:+ to_string (get_prop o "error_description"))).
Proof.
  unfold Gitlab.getUserInfo. unfold bind at 1.
  destruct (Gitlab.getOpenIDConfig net s st) as [[config|e] st1] eqn:Hcfg.
  - clear Hcfg. run.
    destruct (net _ _) as [res'|] eqn:Hnet.
    + destruct (body res') as [o'|] eqn:Hbody'.
      * destruct (status res' =? 200)%Z eqn:Hst; simpl;
          intros [= <- <-]; rewrite last_answer_snoc, Hnet;
          intros [= ->]; rewrite Hbody'; intros [= ->]; by rewrite Hst.
      * intros [= <- <-]. rewrite last_answer_snoc, Hnet. intros [= ->]. congruence.
    + intros [= <- <-]. rewrite last_answer_snoc, Hnet. done.
  - intros [= <- <-] Hlast Hbody.
    apply Gitlab_getOpenIDConfig_Throw in Hcfg. rewrite Hlast in Hcfg. congruence.
Qed.

(** C3, as the code has it. Let the provider answer the request of the
    operation with a response whose body parses to the object [o].
    getAccessToken fails exactly when `o.error` counts as true, with an
    Error whose message is that error code alone, and otherwise returns the
    parsed result (GitLab: with `expires` set); it does not look at the
    status. getUserInfo fails exactly when the status is not 200, with an
    Error whose message is `<o.error>: <o.error_description>`, and otherwise
    returns the profile made from [o]; it does not look for an error in a
    200 response. *)
Theorem provider_error_handling `{JsHost} (net : network) (s : settings)
    (now : Z) (params : token_params) (token : string) (st st' : store)
    (out : outcome jobj) (res : response) (o : jobj) :
  last_answer net st' = Some res →
  body res = Some o →
  (Github.getAccessToken net s params st = (out, st') →
   out = if truthy (get_prop o "error")
         then Throw (Error (to_string (get_prop o "error")))
         else Return o)
  ∧ (Gitlab.getAccessToken net s now params st = (out, st') →
     out = if truthy (get_prop o "error")
           then Throw (Error (to_string (get_prop o "error")))
           else Return (set_prop o "expires"
                          (Gitlab.expiry now (get_prop o "expires_in"))))
  ∧ (Github.getUserInfo net token st = (out, st') →
     out = if (status res =? 200)%Z
           then Return (Github.profile o)
           else Throw (Error (to_string (get_prop o "error") +:+ ": "
                              +:+ to_string (get_prop o "error_description"))))
  ∧ (Gitlab.getUserInfo net s token st = (out, st') →
     out = if (status res =? 200)%Z
           then Return (Gitlab.profile o)
           else Throw (Error (to_string (get_prop o "error") +:+ ": "
                              +:+ to_string (get_prop o "error_description")))).
Proof.
  intros Hlast Hbody. repeat split; intros Hrun.
  - eapply Github_getAccessToken_outcome; eauto.
  - eapply Gitlab_getAccessToken_outcome; eauto.
  - eapply Github_getUserInfo_outcome; eauto.
  - eapply Gitlab_getUserInfo_outcome; eauto.
Qed.

Lemma provider_error_handling_witness :
  (Github.getAccessToken (H := sample_host) (always 200 error_payload) sample_settings
     (AuthCode "c0de" "https://db.example.org/cb") fresh).1
  = Throw (Error "bad_verification_code")
  ∧ (Gitlab.getUserInfo (H := sample_host) (always 401 error_payload) sample_settings
       "token" discovered).1
    = Throw (Error "bad_verification_code: The code passed is incorrect or expired.").
Proof.
  split.
  - destruct (provider_error_handling (H := sample_host) (always 200 error_payload)
                sample_settings 0 (AuthCode "c0de" "https://db.example.org/cb") "token" fresh
                (Github.getAccessToken (H := sample_host) (always 200 error_payload)
                   sample_settings (AuthCode "c0de" "https://db.example.org/cb") fresh).2
                (Github.getAccessToken (H := sample_host) (always 200 error_payload)
                   sample_settings (AuthCode "c0de" "https://db.example.org/cb") fresh).1
                {| status := 200; body := Some error_payload |} error_payload)
      as (Htoken & _); [reflexivity..|].
    apply Htoken. reflexivity.
  - destruct (provider_error_handling (H := sample_host) (always 401 error_payload)
                sample_settings 0 (Refresh "r") "token" discovered
                (Gitlab.getUserInfo (H := sample_host) (always 401 error_payload)
                   sample_settings "token" discovered).2
                (Gitlab.getUserInfo (H := sample_host) (always 401 error_payload)
                   sample_settings "token" discovered).1
                {| status := 401; body := Some error_payload |} error_payload)
      as (_ & _ & _ & Huser); [reflexivity..|].
    apply Huser. reflexivity.
Defined.

(** C3 fails as stated: a token response with status 500 and no `error`
    field is returned as the result, and a profile response with status 200
    and an error payload is turned into a profile. *)
Lemma provider_error_handling_counterexample :
  last_answer (always 500 ∅)
    (Github.getAccessToken (H := sample_host) (always 500 ∅) sample_settings
       (AuthCode "c0de" "https://db.example.org/cb") fresh).2
  = Some {| status := 500; body := Some ∅ |}
  ∧ (Github.getAccessToken (H := sample_host) (always 500 ∅) sample_settings
       (AuthCode "c0de" "https://db.example.org/cb") fresh).1
    = Return ∅
  ∧ (Github.getUserInfo (H := sample_host) (always 200 error_payload) "token" fresh).1
    = Return (Github.profile error_payload).
Proof. repeat split; vm_compute; reflexivity. Qed.

(** ** The authorization URL *)

Lemma Github_init_run (s : settings) (info : OAuth2ProviderInitInfo) (st : store) :
  Github.init s info st =
  (match scopes s with
   | Some xs =>
       Return ("https://github.com/login/oauth/authorize?scope="
               +:+ encodeURIComponent (join " " xs)
               +:+ "&client_id=" +:+ client_id s
               +:+ "&state=" +:+ encodeURIComponent_opt (state info)
               +:+ "&redirect_uri=" +:+ encodeURIComponent (redirect_url info))
   | None => Throw TypeError
   end, st).
Proof. unfold Github.init, joined_scopes. run. by destruct (scopes s). Qed.

Lemma Gitlab_init_cached `{JsHost} (net : network) (s : settings)
    (info : OAuth2ProviderInitInfo) (st : store) (c : jobj) :
  _config st = Some c →
  Gitlab.init net s info st =
  (match scopes s with
   | Some xs =>
       Return (to_string (get_prop c "authorization_endpoint")
               +:+ "?response_type=code&access_type=offline&include_granted_scopes=true&client_id="
               +:+ client_id s
               +:+ "&scope=" +:+ encodeURIComponent (join " " xs)
               +:+ "&redirect_uri=" +:+ encodeURIComponent (redirect_url info)
               +:+ "&state=" +:+ encodeURIComponent_opt (state info))
   | None => Throw TypeError
   end, st).
Proof.
  intros Hc. unfold Gitlab.init. unfold bind at 1.
  rewrite (Gitlab_getOpenIDConfig_cached _ _ _ _ Hc).
  unfold joined_scopes. run. by destruct (scopes s).
Qed.

Lemma Gitlab_getOpenIDConfig_fetched (net : network) (s : settings) (st : store) :
  _config st = None →
  fetched (Gitlab.getOpenIDConfig net s st).2 =
  fetched st ++ [GET (JStr ("https://" +:+ host s
                            +:+ "/.well-known/openid-configuration"))].
Proof.
  intros Hc. unfold Gitlab.getOpenIDConfig. run. rewrite Hc.
  destruct (net _ _) as [res|]; [|done].
  by destruct (body res).
Qed.

Lemma Gitlab_init_Return `{JsHost} (net : network) (s : settings)
    (info : OAuth2ProviderInitInfo) (st st' : store) (url : string) :
  Gitlab.init net s info st = (Return url, st') →
  ∃ c xs, _config st' = Some c ∧ scopes s = Some xs
    ∧ url = to_string (get_prop c "authorization_endpoint")
            +:+ "?response_type=code&access_type=offline&include_granted_scopes=true&client_id="
            +:+ client_id s
            +:+ "&scope=" +:+ encodeURIComponent (join " " xs)
            +:+ "&redirect_uri=" +:+ encodeURIComponent (redirect_url info)
            +:+ "&state=" +:+ encodeURIComponent_opt (state info).
Proof.
  unfold Gitlab.init. unfold bind at 1.
  destruct (Gitlab.getOpenIDConfig net s st) as [[c|e] st1] eqn:Hcfg; [|done].
  apply Gitlab_getOpenIDConfig_Return in Hcfg.
  unfold joined_scopes. run.
  destruct (scopes s) as [xs|]; [|done].
  intros [= <- <-]. by exists c, xs.
Qed.

(** C4, as the code has it. GitHub's init makes no request and its result
    is a function of the settings and the input. GitLab's init first asks
    for the discovery document: with the document already stored on the
    instance it makes no request and two runs agree whatever the network
    would answer; with none stored it makes exactly one request, for
    https://<host>/.well-known/openid-configuration. The URL it returns is
    made of the settings, the input and the authorization_endpoint of the
    document the instance then holds. *)
Theorem init_deterministic `{JsHost} (s : settings)
    (info : OAuth2ProviderInitInfo) (st : store) :
  ((Github.init s info st).2 = st
   ∧ ∀ st2, (Github.init s info st2).1 = (Github.init s info st).1)
  ∧ (∀ net1 net2 c, _config st = Some c →
       (Gitlab.init net1 s info st).2 = st
       ∧ Gitlab.init net2 s info st = Gitlab.init net1 s info st)
  ∧ (∀ net, _config st = None →
       fetched (Gitlab.init net s info st).2 =
       fetched st ++ [GET (JStr ("https://" +:+ host s
                                 +:+ "/.well-known/openid-configuration"))])
  ∧ (∀ net url st', Gitlab.init net s info st = (Return url, st') →
       ∃ c xs, _config st' = Some c ∧ scopes s = Some xs
         ∧ url = to_string (get_prop c "authorization_endpoint")
                 +:+ "?response_type=code&access_type=offline&include_granted_scopes=true&client_id="
                 +:+ client_id s
                 +:+ "&scope=" +:+ encodeURIComponent (join " " xs)
                 +:+ "&redirect_uri=" +:+ encodeURIComponent (redirect_url info)
                 +:+ "&state=" +:+ encodeURIComponent_opt (state info)).
Proof.
  split; [|split; [|split]].
  - split; [|intros st2]; by rewrite !Github_init_run.
  - intros net1 net2 c Hc.
    by rewrite !(Gitlab_init_cached _ _ _ _ _ Hc).
  - intros net Hc.
    rewrite <- (Gitlab_getOpenIDConfig_fetched net s st Hc).
    unfold Gitlab.init. unfold bind at 1.
    destruct (Gitlab.getOpenIDConfig net s st) as [[config|e] st1]; [|done].
    unfold joined_scopes. run. by destruct (scopes s).
  - intros net url st'. apply Gitlab_init_Return.
Qed.

Lemma init_deterministic_witness :
  Gitlab.init (H := sample_host) (gitlab_net "https://a.example.org/auth" 200 ∅)
    sample_settings sample_info discovered
  = Gitlab.init (H := sample_host) (gitlab_net "https://b.example.org/auth" 200 ∅)
      sample_settings sample_info discovered
  ∧ length (fetched (Gitlab.init (H := sample_host)
                       (gitlab_net "https://a.example.org/auth" 200 ∅)
                       sample_settings sample_info fresh).2) = 1.
Proof.
  destruct (init_deterministic (H := sample_host) sample_settings sample_info discovered)
    as (_ & Hcached & _).
  destruct (init_deterministic (H := sample_host) sample_settings sample_info fresh)
    as (_ & _ & Hfresh & _).
  split.
  - apply (Hcached (gitlab_net "https://b.example.org/auth" 200 ∅)
             (gitlab_net "https://a.example.org/auth" 200 ∅)
             (discovery "https://gitlab.example.org/oauth/authorize")).
    reflexivity.
  - rewrite (Hfresh (gitlab_net "https://a.example.org/auth" 200 ∅)); reflexivity.
Defined.

(** C4 fails as stated: on an instance that has not fetched its discovery
    document, GitLab's init makes a request, and two networks that serve
    different documents lead to different URLs. *)
Lemma init_deterministic_counterexample :
  (Gitlab.init (H := sample_host) (gitlab_net "https://a.example.org/auth" 200 ∅)
     sample_settings sample_info fresh).1
  ≠ (Gitlab.init (H := sample_host) (gitlab_net "https://b.example.org/auth" 200 ∅)
       sample_settings sample_info fresh).1
  ∧ fetched (Gitlab.init (H := sample_host)
               (gitlab_net "https://a.example.org/auth" 200 ∅)
               sample_settings sample_info fresh).2
    = [GET (JStr "https://gitlab.example.org/.well-known/openid-configuration")].
Proof. split; [vm_compute; discriminate | vm_compute; reflexivity]. Qed.

Example Github_init_sample :
  (Github.init (Github.constructor sample_settings) sample_info fresh).1 =
  Return "https://github.com/login/oauth/authorize?scope=email%20profile%20openid&client_id=app&state=xyz&redirect_uri=https%3A%2F%2Fdb.example.org%2Fcb".
Proof. reflexivity. Qed.

(** ** The discovery document *)

(** No method clears or replaces a stored discovery document. *)
Lemma run_call_config `{JsHost} (net : network) (s : settings)
    (call : gitlab_call) (st : store) (c : jobj) :
  _config st = Some c → _config (run_call net s call st) = Some c.
Proof.
  intros Hc. destruct call; simpl.
  - by rewrite (Gitlab_getOpenIDConfig_cached _ _ _ _ Hc).
  - by rewrite (Gitlab_init_cached _ _ _ _ _ Hc).
  - unfold Gitlab.getAccessToken. unfold bind at 1.
    rewrite (Gitlab_getOpenIDConfig_cached _ _ _ _ Hc). run.
    destruct (net _ _) as [res|]; [|done].
    destruct (body res) as [o|]; [|done].
    by destruct (truthy _).
  - unfold Gitlab.revokeAccess. unfold bind at 1.
    rewrite (Gitlab_getOpenIDConfig_cached _ _ _ _ Hc). run.
    destruct (net _ _) as [res|]; [|done].
    by destruct (status res =? 200)%Z.
  - unfold Gitlab.getUserInfo. unfold bind at 1.
    rewrite (Gitlab_getOpenIDConfig_cached _ _ _ _ Hc). run.
    destruct (net _ _) as [res|]; [|done].
    destruct (body res) as [o|]; [|done].
    by destruct (status res =? 200)%Z.
Qed.

Lemma run_calls_config `{JsHost} (net : network) (s : settings)
    (calls : list gitlab_call) (st : store) (c : jobj) :
  _config st = Some c → _config (run_calls net s calls st) = Some c.
Proof.
  revert st. induction calls as [|call calls IH]; intros st Hc; [done|].
  apply IH. by apply run_call_config.
Qed.

(** One call of [Gitlab.getOpenIDConfig] is a call of [Discovery] that
    nothing interrupts: the part before the `await`, then, if it fetched,
    the part after it with what the network answered. *)
Lemma getOpenIDConfig_run_to_completion (net : network) (s : settings) (st : store) :
  let url := JStr ("https://" +:+ host s +:+ "/.well-known/openid-configuration") in
  (Discovery.as_value (Gitlab.getOpenIDConfig net s st).1,
   Discovery.instance_of (Gitlab.getOpenIDConfig net s st).2)
  = match Discovery.before_await s (Discovery.instance_of st) with
    | (Some c, i) => (Return c, i)
    | (None, i) =>
        Discovery.after_await
          (Discovery.arrival_of (net (length (fetched st)) (GET url))) i
    end.
Proof.
  intros url.
  unfold Gitlab.getOpenIDConfig, Discovery.before_await, Discovery.instance_of. run.
  destruct (_config st) as [c|] eqn:Hc; simpl; [by rewrite Hc|].
  unfold Discovery.arrival_of. fold url.
  destruct (net (length (fetched st)) (GET url)) as [res|]; simpl; [|by rewrite Hc].
  destruct (body res); simpl; [done|by rewrite Hc].
Qed.

Lemma Discovery_schedule_stored (s : settings) (es : list Discovery.event)
    (i : Discovery.instance) (ended : list (outcome jval)) :
  truthy (Discovery.this_config i) = true →
  Discovery.schedule s es
    {| Discovery.inst := i; Discovery.awaiting := 0; Discovery.results := ended |}
  = {| Discovery.inst := i; Discovery.awaiting := 0;
       Discovery.results :=
         ended ++ ((λ _, Return (Discovery.this_config i))
                    <$> List.filter Discovery.is_call es) |}.
Proof.
  intros Hc. revert ended. induction es as [|e es IH]; intros ended; simpl.
  - by rewrite app_nil_r.
  - destruct e as [|a]; simpl.
    + unfold Discovery.before_await. rewrite Hc. simpl.
      rewrite IH. by rewrite <- app_assoc.
    + apply IH.
Qed.

(** C6, as the code has it. A call of getOpenIDConfig that finds no
    document counting as true hands one request to `fetch`, and what the
    body parses to is stored when the fetch has settled. Once a document
    that counts as true is stored and no call still awaits its fetch, every
    call returns it and none makes a request, however many calls follow;
    and with calls that each run to their end, once getOpenIDConfig has
    returned a document it returns that document without a request after
    any other calls on the instance, whatever the clock and the network
    say. *)
Theorem getOpenIDConfig_caching `{JsHost} (net : network) (s : settings) :
  (∀ i, truthy (Discovery.this_config i) = false →
     Discovery.before_await s i =
     (None, {| Discovery.this_config := Discovery.this_config i;
               Discovery.requested := Discovery.requested i
                 ++ [GET (JStr ("https://" +:+ host s
                                +:+ "/.well-known/openid-configuration"))] |}))
  ∧ (∀ i doc,
       Discovery.after_await (Discovery.Parsed doc) i =
       (Return doc, {| Discovery.this_config := doc;
                       Discovery.requested := Discovery.requested i |}))
  ∧ (∀ i es, truthy (Discovery.this_config i) = true →
       Discovery.schedule s es
         {| Discovery.inst := i; Discovery.awaiting := 0; Discovery.results := [] |}
       = {| Discovery.inst := i; Discovery.awaiting := 0;
            Discovery.results :=
              (λ _, Return (Discovery.this_config i))
                <$> List.filter Discovery.is_call es |})
  ∧ (∀ st st1 config,
       Gitlab.getOpenIDConfig net s st = (Return config, st1) →
       _config st1 = Some config
       ∧ ∀ (net' : network) (calls : list gitlab_call),
           let st2 := run_calls net' s calls st1 in
           Gitlab.getOpenIDConfig net' s st2 = (Return config, st2)).
Proof.
  split; [|split; [|split]].
  - intros i Hc. unfold Discovery.before_await. by rewrite Hc.
  - done.
  - intros i es Hc. by rewrite Discovery_schedule_stored.
  - intros st st1 config Hrun.
    apply Gitlab_getOpenIDConfig_Return in Hrun. split; [done|].
    intros net' calls st2. apply Gitlab_getOpenIDConfig_cached.
    by apply run_calls_config.
Qed.

Lemma getOpenIDConfig_caching_witness :
  let doc := JObj (discovery "https://a.example.org/auth") in
  let net := gitlab_net "https://a.example.org/auth" 200 gitlab_user in
  let calls := [CallGetUserInfo "token"; CallGetOpenIDConfig;
                CallGetAccessToken 1700000000000 (Refresh "r")] in
  Discovery.schedule sample_settings
    [Discovery.Call; Discovery.Arrive (Discovery.Parsed JNull); Discovery.Call]
    {| Discovery.inst := {| Discovery.this_config := doc; Discovery.requested := [] |};
       Discovery.awaiting := 0; Discovery.results := [] |}
  = {| Discovery.inst := {| Discovery.this_config := doc; Discovery.requested := [] |};
       Discovery.awaiting := 0; Discovery.results := [Return doc; Return doc] |}
  ∧ Gitlab.getOpenIDConfig net sample_settings
      (run_calls (H := sample_host) net sample_settings calls
         (Gitlab.getOpenIDConfig net sample_settings fresh).2)
    = (Return (discovery "https://a.example.org/auth"),
       run_calls (H := sample_host) net sample_settings calls
         (Gitlab.getOpenIDConfig net sample_settings fresh).2).
Proof.
  intros doc net calls.
  destruct (getOpenIDConfig_caching (H := sample_host) net sample_settings)
    as (_ & _ & Hstored & Hsequential).
  split.
  - apply (Hstored {| Discovery.this_config := doc; Discovery.requested := [] |}).
    reflexivity.
  - apply (Hsequential fresh (Gitlab.getOpenIDConfig net sample_settings fresh).2
             (discovery "https://a.example.org/auth")).
    reflexivity.
Defined.

(** C6 fails as stated. On a new instance, two calls that both start
    before the first fetch has settled both make the discovery request; so
    does a second call after a first whose fetch failed, and a second call
    after a first that stored a document counting as false (here null). *)
Lemma getOpenIDConfig_caching_counterexample :
  let url := JStr "https://gitlab.example.org/.well-known/openid-configuration" in
  let doc := JObj (discovery "https://a.example.org/auth") in
  Discovery.schedule sample_settings
    [Discovery.Call; Discovery.Call;
     Discovery.Arrive (Discovery.Parsed doc); Discovery.Arrive (Discovery.Parsed doc)]
    Discovery.new
  = {| Discovery.inst := {| Discovery.this_config := doc;
                            Discovery.requested := [GET url; GET url] |};
       Discovery.awaiting := 0; Discovery.results := [Return doc; Return doc] |}
  ∧ Discovery.requested (Discovery.inst
      (Discovery.schedule sample_settings
         [Discovery.Call; Discovery.Arrive Discovery.Rejected; Discovery.Call]
         Discovery.new))
    = [GET url; GET url]
  ∧ Discovery.requested (Discovery.inst
      (Discovery.schedule sample_settings
         [Discovery.Call; Discovery.Arrive (Discovery.Parsed JNull); Discovery.Call]
         Discovery.new))
    = [GET url; GET url].
Proof. repeat split. Qed.

(** ** The registry *)

Lemma GithubAuthProvider_not_in_Index : GithubAuthProvider ∉ Index_exported.
Proof.
  unfold Index_exported. intros Hin.
  repeat (apply elem_of_cons in Hin as [Hin|Hin]; [discriminate|]).
  by apply elem_of_nil in Hin.
Qed.

(** C7. In the index.ts that imports ./github, all seven variants are
    exported and looking up each of the names dropbox, facebook, google,
    instagram, spotify, gitlab, github in the registry yields that
    provider's class. In the index.ts without ./github, which exports the
    other six and not GithubAuthProvider, every exported variant is
    selectable under its name as well. *)
Theorem oAuth2Providers_selectable :
  Forall (λ entry, IndexWithGithub.oAuth2Providers !! entry.1 = Some entry.2)
    provider_names
  ∧ IndexWithGithub_exported = provider_names.*2
  ∧ selectable IndexWithGithub.oAuth2Providers IndexWithGithub_exported
  ∧ selectable Index.oAuth2Providers Index_exported
  ∧ GithubAuthProvider ∉ Index_exported.
Proof.
  split; [|split; [|split; [|split]]].
  - unfold provider_names. repeat constructor.
  - reflexivity.
  - unfold selectable, IndexWithGithub_exported, provider_names.
    repeat (apply Forall_cons; split;
            [repeat (first [by apply Exists_cons_hd | apply Exists_cons_tl])|]).
    apply Forall_nil; exact I.
  - unfold selectable, Index_exported, provider_names.
    repeat (apply Forall_cons; split;
            [repeat (first [by apply Exists_cons_hd | apply Exists_cons_tl])|]).
    apply Forall_nil; exact I.
  - apply GithubAuthProvider_not_in_Index.
Qed.

(** ** Scopes *)

Lemma occurrences_app (x : string) (xs ys : list string) :
  occurrences x (xs ++ ys) = occurrences x xs + occurrences x ys.
Proof. unfold occurrences. by rewrite List.filter_app, length_app. Qed.

Lemma occurrences_0 (x : string) (xs : list string) :
  x ∉ xs → occurrences x xs = 0.
Proof.
  unfold occurrences. induction xs as [|y xs IH]; [done|].
  intros Hx. apply not_elem_of_cons in Hx as [Hxy Hx]. simpl.
  destruct (String.eqb_spec x y); [done|]. by apply IH.
Qed.

Lemma push_missing_spec (s : string) (xs : list string) :
  s ∈ push_missing s xs
  ∧ xs `prefix_of` push_missing s xs
  ∧ (∀ x, x ∈ push_missing s xs ↔ x ∈ xs ∨ x = s)
  ∧ ∀ x, occurrences x (push_missing s xs) =
         if bool_decide (x = s ∧ s ∉ xs) then 1 else occurrences x xs.
Proof.
  unfold push_missing, includes.
  destruct (decide (s ∈ xs)) as [Hin|Hin].
  - rewrite (bool_decide_eq_true_2 _ Hin); simpl.
    repeat split; [done|done|by left|by intros [?| ->]|].
    intros x. rewrite bool_decide_eq_false_2; [done|]. by intros [_ ?].
  - rewrite (bool_decide_eq_false_2 _ Hin); simpl.
    repeat split.
    + apply elem_of_app. right. by apply list_elem_of_singleton.
    + by apply prefix_app_r.
    + rewrite elem_of_app, list_elem_of_singleton. done.
    + rewrite elem_of_app, list_elem_of_singleton. done.
    + intros x. rewrite occurrences_app.
      destruct (decide (x = s)) as [->|Hne].
      * rewrite bool_decide_eq_true_2 by done.
        rewrite (occurrences_0 _ _ Hin). unfold occurrences; simpl.
        by rewrite String.eqb_refl.
      * rewrite bool_decide_eq_false_2 by (by intros [? _]).
        unfold occurrences at 2; simpl.
        destruct (String.eqb_spec x s); [done|]. simpl. lia.
Qed.

(** C10. After either constructor, `settings.scopes` contains email,
    profile and openid; the scopes the caller gave come first, unchanged,
    and a scope occurs as often as the caller gave it, or once if it is one
    of the three and the caller did not give it. *)
Theorem constructor_scopes (s : settings) :
  let given := default [] (scopes s) in
  ∃ xs, scopes (Github.constructor s) = Some xs
        ∧ scopes (Gitlab.constructor s) = Some xs
        ∧ "email" ∈ xs ∧ "profile" ∈ xs ∧ "openid" ∈ xs
        ∧ given `prefix_of` xs
        ∧ ∀ x, occurrences x xs =
               if bool_decide (x ∈ given) then occurrences x given
               else if bool_decide (x ∈ ["email"; "profile"; "openid"]) then 1
               else 0.
Proof.
  intros given.
  exists (push_missing "openid" (push_missing "profile" (push_missing "email" given))).
  assert (match scopes s with Some xs => xs | None => [] end = given) as Hgiven
    by (unfold given; by destruct (scopes s)).
  destruct (push_missing_spec "email" given) as (He & Hp1 & Hin1 & Hocc1).
  destruct (push_missing_spec "profile" (push_missing "email" given))
    as (Hp & Hp2 & Hin2 & Hocc2).
  destruct (push_missing_spec "openid"
              (push_missing "profile" (push_missing "email" given)))
    as (Ho & Hp3 & Hin3 & Hocc3).
  split; [|split]; [unfold Github.constructor, with_default_scopes; simpl;
                    by rewrite Hgiven ..|].
  repeat split.
  - apply Hin3. left. apply Hin2. by left.
  - apply Hin3. by left.
  - done.
  - by repeat (etrans; [eassumption|]).
  - intros x. rewrite Hocc3, Hocc2, Hocc1.
    destruct (decide (x ∈ given)) as [Hx|Hx].
    + rewrite (bool_decide_eq_true_2 _ Hx).
      rewrite !bool_decide_eq_false_2; [done|..].
      * intros [-> Hn]. by apply Hn.
      * intros [-> Hn]. apply Hn, Hin1. by left.
      * intros [-> Hn]. apply Hn, Hin2. left. apply Hin1. by left.
    + rewrite (bool_decide_eq_false_2 _ Hx), (occurrences_0 _ _ Hx).
      destruct (decide (x = "openid")) as [->|Hno].
      { rewrite bool_decide_eq_true_2; [done|]. split; [done|].
        rewrite Hin2, Hin1. intros [[?|?]|?]; done. }
      rewrite (bool_decide_eq_false_2 (x = "openid" ∧ _)) by (by intros [? _]).
      destruct (decide (x = "profile")) as [->|Hnp].
      { rewrite bool_decide_eq_true_2; [done|]. split; [done|].
        rewrite Hin1. intros [?|?]; done. }
      rewrite (bool_decide_eq_false_2 (x = "profile" ∧ _)) by (by intros [? _]).
      destruct (decide (x = "email")) as [->|Hne].
      { by rewrite bool_decide_eq_true_2. }
      rewrite (bool_decide_eq_false_2 (x = "email" ∧ _)) by (by intros [? _]).
      rewrite bool_decide_eq_false_2; [done|].
      rewrite !elem_of_cons, elem_of_nil. intros [?|[?|[?|[]]]]; done.
Qed.

Example constructor_sample :
  scopes (Github.constructor
            {| client_id := "app"; client_secret := "s3cret";
               scopes := Some ["openid"; "read_user"; "openid"];
               host := "github.example.org" |})
  = Some ["openid"; "read_user"; "openid"; "email"; "profile"].
Proof. reflexivity. Qed.

(** ** The /info route *)

(** C9. When the request has no user, or a user whose uid is not 'admin',
    the body sent is exactly `{version, time, process}`, so it has none of
    the properties of adminInfo; these (dbname, platform, arch, release,
    host, uptime, load, mem, cpus, network) are what a request of 'admin'
    gets in addition. *)
Theorem info_without_admin `{JsHost} (env : MetaInfo.Environment) (req : MetaInfo.Request) :
  (MetaInfo.user req = None
   ∨ ∃ u, MetaInfo.user req = Some u ∧ MetaInfo.uid u ≠ "admin") →
  MetaInfo.handler env req =
    literal [("version", JStr (MetaInfo.meta_version env));
             ("time", JNum (inject_Z (MetaInfo.Date_now env)));
             ("process", JNum (inject_Z (MetaInfo.process_pid env)))]
  ∧ dom (MetaInfo.handler env req) = {["version"; "time"; "process"]}
  ∧ dom (MetaInfo.adminInfo env) =
      {["dbname"; "platform"; "arch"; "release"; "host"; "uptime"; "load";
        "mem"; "cpus"; "network"]}
  ∧ dom (MetaInfo.handler env req) ## dom (MetaInfo.adminInfo env)
  ∧ dom (MetaInfo.handler env {| MetaInfo.user := Some {| MetaInfo.uid := "admin" |} |})
    = dom (MetaInfo.handler env req) ∪ dom (MetaInfo.adminInfo env).
Proof.
  intros Huser.
  assert (MetaInfo.handler env req =
          literal [("version", JStr (MetaInfo.meta_version env));
                   ("time", JNum (inject_Z (MetaInfo.Date_now env)));
                   ("process", JNum (inject_Z (MetaInfo.process_pid env)))]) as ->.
  { unfold MetaInfo.handler.
    destruct Huser as [-> | (u & -> & Hu)]; [done|].
    by destruct (String.eqb_spec (MetaInfo.uid u) "admin"). }
  assert (dom (MetaInfo.adminInfo env) =
          {["dbname"; "platform"; "arch"; "release"; "host"; "uptime"; "load";
            "mem"; "cpus"; "network"]}) as Hadmin by reflexivity.
  split; [reflexivity|]. split; [reflexivity|]. split; [exact Hadmin|].
  rewrite Hadmin. split.
  - apply (bool_decide_unpack _). vm_compute. exact I.
  - reflexivity.
Qed.

Lemma info_without_admin_witness :
  let env := {|
    MetaInfo.meta_version := "1.2.3"; MetaInfo.Date_now := 1700000000000;
    MetaInfo.process_pid := 4711; MetaInfo.db_name := "mydb";
    MetaInfo.os_platform := "linux"; MetaInfo.os_arch := "x64";
    MetaInfo.os_release := "6.1"; MetaInfo.os_hostname := "db1";
    MetaInfo.os_uptime := 93784; MetaInfo.os_loadavg := [];
    MetaInfo.os_totalmem := 0; MetaInfo.os_freemem := 0;
    MetaInfo.mem_arrayBuffers := 0; MetaInfo.mem_external := 0;
    MetaInfo.mem_heapTotal := 0; MetaInfo.mem_heapUsed := 0;
    MetaInfo.mem_rss := 0; MetaInfo.os_cpus := JArr [];
    MetaInfo.os_networkInterfaces := JObj ∅ |} in
  dom (MetaInfo.handler (H := sample_host) env
         {| MetaInfo.user := Some {| MetaInfo.uid := "alice" |} |})
  = {["version"; "time"; "process"]}.
Proof.
  intros env.
  apply (info_without_admin (H := sample_host) env
           {| MetaInfo.user := Some {| MetaInfo.uid := "alice" |} |}).
  right. exists {| MetaInfo.uid := "alice" |}. split; [reflexivity|discriminate].
Defined.

Example numberToTime_sample :
  MetaInfo.numberToTime (H := sample_host) 93784.5 = JStr "1d2h3m4s".
Proof. reflexivity. Qed.


Example encodeURIComponent_sample :
  encodeURIComponent "https://a.b/c d?x=1&y=(2)" = "https%3A%2F%2Fa.b%2Fc%20d%3Fx%3D1%26y%3D(2)".
Proof. reflexivity. Qed.

(** * Further properties *)

(** ** Scopes, continued *)

Lemma push_missing_id (s : string) (xs : list string) :
  s ∈ xs → push_missing s xs = xs.
Proof.
  intros Hin. unfold push_missing, includes.
  by rewrite (bool_decide_eq_true_2 _ Hin).
Qed.

Lemma push_missing_new (s : string) (xs : list string) :
  s ∉ xs → push_missing s xs = xs ++ [s].
Proof.
  intros Hin. unfold push_missing, includes.
  by rewrite (bool_decide_eq_false_2 _ Hin).
Qed.

Lemma push_missing_NoDup (s : string) (xs : list string) :
  NoDup xs → NoDup (push_missing s xs).
Proof.
  intros Hxs. destruct (decide (s ∈ xs)) as [Hin|Hin].
  - by rewrite push_missing_id.
  - rewrite push_missing_new by done.
    apply NoDup_app. split; [done|]. split; [|apply NoDup_singleton].
    intros x Hx Hs. apply list_elem_of_singleton in Hs as ->. done.
Qed.

(** X2. Constructing twice changes nothing more: the constructors are idempotent
    on the settings, and each leaves the other's result alone. *)
Theorem constructor_idempotent (s : settings) :
  Github.constructor (Github.constructor s) = Github.constructor s
  ∧ Gitlab.constructor (Gitlab.constructor s) = Gitlab.constructor s
  ∧ Gitlab.constructor (Github.constructor s) = Github.constructor s.
Proof.
  assert (with_default_scopes (with_default_scopes s) = with_default_scopes s) as Hidem.
  { unfold with_default_scopes at 1. simpl.
    set (given := match scopes s with Some xs => xs | None => [] end).
    destruct (push_missing_spec "email" given) as (He & _ & Hin1 & _).
    destruct (push_missing_spec "profile" (push_missing "email" given))
      as (Hp & _ & Hin2 & _).
    destruct (push_missing_spec "openid"
                (push_missing "profile" (push_missing "email" given)))
      as (Ho & _ & Hin3 & _).
    rewrite (push_missing_id "email"), (push_missing_id "profile"),
      (push_missing_id "openid"); [done|done|..].
    - apply Hin3. by left.
    - apply Hin3. left. apply Hin2. by left. }
  by repeat split.
Qed.

Lemma push_missing_filter (given extra : list string) (s : string) :
  s ∉ extra →
  push_missing s (given ++ List.filter (λ x, negb (includes given x)) extra) =
  given ++ List.filter (λ x, negb (includes given x)) (extra ++ [s]).
Proof.
  intros Hextra. rewrite List.filter_app; simpl. unfold includes at 3.
  destruct (decide (s ∈ given)) as [Hin|Hin].
  - rewrite (bool_decide_eq_true_2 _ Hin); simpl. rewrite app_nil_r.
    apply push_missing_id, elem_of_app. by left.
  - rewrite (bool_decide_eq_false_2 _ Hin); simpl. rewrite app_assoc.
    apply push_missing_new. rewrite elem_of_app. intros [?|Hs]; [done|].
    apply list_elem_of_In, filter_In in Hs as [Hs _].
    by apply list_elem_of_In in Hs.
Qed.

(** X1. The scopes after construction, in order: the caller's list, then those
    of email, profile, openid that it lacks. *)
Theorem constructor_scopes_order (s : settings) :
  let given := default [] (scopes s) in
  scopes (Github.constructor s) =
    Some (given ++ List.filter (λ x, negb (includes given x))
                     ["email"; "profile"; "openid"])
  ∧ scopes (Gitlab.constructor s) = scopes (Github.constructor s).
Proof.
  intros given. split; [|done].
  unfold Github.constructor, with_default_scopes; simpl.
  replace (match scopes s with Some xs => xs | None => [] end) with given
    by (unfold given; by destruct (scopes s)).
  f_equal.
  rewrite <- (app_nil_r given) at 1.
  change [] with (List.filter (λ x, negb (includes given x)) []) at 1.
  rewrite (push_missing_filter given [] "email") by apply not_elem_of_nil.
  cbn [app].
  rewrite (push_missing_filter given ["email"] "profile")
    by (by intros ?%list_elem_of_singleton).
  cbn [app].
  rewrite (push_missing_filter given ["email"; "profile"] "openid"); [done|].
  rewrite !elem_of_cons, elem_of_nil. intros [?|[?|[]]]; done.
Qed.

(** X3. A list of scopes without repetition stays without repetition. *)
Theorem constructor_scopes_NoDup (s : settings) (given : list string) :
  scopes s = Some given →
  NoDup given →
  ∃ xs, scopes (Github.constructor s) = Some xs
        ∧ scopes (Gitlab.constructor s) = Some xs ∧ NoDup xs.
Proof.
  intros Hs Hgiven. eexists. split; [|split]; [reflexivity..|].
  rewrite Hs. by do 3 apply push_missing_NoDup.
Qed.

Lemma constructor_scopes_NoDup_witness :
  ∃ xs, scopes (Github.constructor sample_settings) = Some xs
        ∧ scopes (Gitlab.constructor sample_settings) = Some xs ∧ NoDup xs.
Proof.
  apply (constructor_scopes_NoDup sample_settings ["email"; "profile"; "openid"]).
  - reflexivity.
  - apply (bool_decide_unpack _). reflexivity.
Defined.

(** ** The authorization URL, continued *)

Lemma hex_digit_N (n : N) :
  (n < 16)%N → N_of_ascii (hex_digit n) = (if (n <? 10)%N then 48 + n else 55 + n)%N.
Proof.
  intros Hn. unfold hex_digit. apply N_ascii_embedding.
  destruct (N.ltb_spec n 10); lia.
Qed.

Lemma hex_digit_inj (a b : N) :
  (a < 16)%N → (b < 16)%N → hex_digit a = hex_digit b → a = b.
Proof.
  intros Ha Hb Heq. apply (f_equal N_of_ascii) in Heq.
  rewrite !hex_digit_N in Heq by done.
  destruct (N.ltb_spec a 10), (N.ltb_spec b 10); lia.
Qed.

Lemma hex_digit_not_amp (n : N) : (n < 16)%N → hex_digit n ≠ "&"%char.
Proof.
  intros Hn Heq. apply (f_equal N_of_ascii) in Heq.
  rewrite hex_digit_N in Heq by done. simpl in Heq.
  destruct (N.ltb_spec n 10); lia.
Qed.

Lemma hex_digit_reserved (n : N) : (n < 16)%N → hex_digit n ≠ "%"%char.
Proof.
  intros Hn Heq. apply (f_equal N_of_ascii) in Heq.
  rewrite hex_digit_N in Heq by done. simpl in Heq.
  destruct (N.ltb_spec n 10); lia.
Qed.

Lemma N_of_ascii_nibbles (c : ascii) :
  (N_of_ascii c / 16 < 16)%N ∧ (N_of_ascii c mod 16 < 16)%N.
Proof.
  pose proof (N_ascii_bounded c). split.
  - apply N.Div0.div_lt_upper_bound. lia.
  - apply N.mod_lt. lia.
Qed.

(** An encoded string holds no `&`. *)
Lemma encodeURIComponent_no_amp (s : string) (a b : string) :
  encodeURIComponent s ≠ a +:+ String "&" b.
Proof.
  revert a. induction s as [|c s IH]; intros a; simpl.
  - by destruct a.
  - destruct (N_of_ascii_nibbles c) as [Hhi Hlo].
    destruct (uri_unreserved c) eqn:Hc.
    + destruct a as [|c' a]; simpl; intros [= Hcc Hrest].
      * subst c. by vm_compute in Hc.
      * by apply IH in Hrest.
    + destruct a as [|c1 a]; simpl; [done|]. intros [= _ Hrest].
      destruct a as [|c2 a]; simpl in Hrest; injection Hrest as Hd Hrest.
      { by apply hex_digit_not_amp in Hd. }
      destruct a as [|c3 a]; simpl in Hrest; injection Hrest as Hd' Hrest.
      { by apply hex_digit_not_amp in Hd'. }
      by apply IH in Hrest.
Qed.

Lemma encodeURIComponent_inj : Inj eq eq encodeURIComponent.
Proof.
  intros s1. induction s1 as [|c1 s1 IH]; intros s2 Heq.
  - destruct s2 as [|c2 s2]; [done|]. simpl in Heq.
    by destruct (uri_unreserved c2).
  - destruct s2 as [|c2 s2]; simpl in Heq.
    { by destruct (uri_unreserved c1). }
    destruct (N_of_ascii_nibbles c1) as [Hhi1 Hlo1].
    destruct (N_of_ascii_nibbles c2) as [Hhi2 Hlo2].
    destruct (uri_unreserved c1) eqn:Hc1, (uri_unreserved c2) eqn:Hc2.
    + injection Heq as -> Hrest. f_equal. by apply IH.
    + injection Heq as -> _. by vm_compute in Hc1.
    + injection Heq as <- _. by vm_compute in Hc2.
    + injection Heq as Hhi Hlo Hrest.
      apply hex_digit_inj in Hhi, Hlo; [|done..].
      f_equal; [|by apply IH].
      rewrite <- (ascii_N_embedding c1), <- (ascii_N_embedding c2). f_equal.
      rewrite (N.div_mod (N_of_ascii c1) 16), (N.div_mod (N_of_ascii c2) 16) by done.
      by rewrite Hhi, Hlo.
Qed.

(** Where two strings without `&` are each followed by `&`, they end at the
    same place. *)
Lemma append_amp_inj (a a' b b' : string) :
  (∀ x y, a ≠ x +:+ String "&" y) → (∀ x y, a' ≠ x +:+ String "&" y) →
  a +:+ String "&" b = a' +:+ String "&" b' → a = a' ∧ b = b'.
Proof.
  revert a'. induction a as [|c a IH]; intros a' Ha Ha' Heq.
  - destruct a' as [|c' a']; simpl in Heq.
    + by injection Heq as ->.
    + injection Heq as <- _. by destruct (Ha' EmptyString a').
  - destruct a' as [|c' a']; simpl in Heq.
    + injection Heq as -> _. by destruct (Ha EmptyString a).
    + injection Heq as -> Hrest.
      destruct (IH a') as [-> ->]; [| |done|done].
      * intros x y ->. by destruct (Ha (String c' x) y).
      * intros x y ->. by destruct (Ha' (String c' x) y).
Qed.

(** X4. On an instance that went through its constructor, GitHub's init
    returns a URL; GitLab's does as soon as the discovery document is
    there. Neither changes the store then. *)
Theorem init_after_constructor `{JsHost} (net : network) (s : settings)
    (info : OAuth2ProviderInitInfo) (st : store) :
  (∃ url, Github.init (Github.constructor s) info st = (Return url, st))
  ∧ ∀ c, _config st = Some c →
      ∃ url, Gitlab.init net (Gitlab.constructor s) info st = (Return url, st).
Proof.
  split.
  - rewrite Github_init_run. simpl. by eexists.
  - intros c Hc. rewrite (Gitlab_init_cached _ _ _ _ _ Hc). simpl. by eexists.
Qed.

Lemma init_after_constructor_witness :
  ∃ url, Gitlab.init (H := sample_host) (always 200 ∅)
           (Gitlab.constructor sample_settings) sample_info discovered
         = (Return url, discovered).
Proof.
  destruct (init_after_constructor (H := sample_host) (always 200 ∅) sample_settings
              sample_info discovered) as [_ Hgitlab].
  apply (Hgitlab (discovery "https://gitlab.example.org/oauth/authorize")).
  reflexivity.
Defined.

(** X5. For given settings (and, for GitLab, a given discovery document), the
    URL tells the redirect URL and the state apart from any other: two
    inputs with the same URL have the same redirect_url and the same state,
    an absent state counting as the text "undefined". *)
Theorem init_url_injective `{JsHost} (net : network) (s : settings)
    (info1 info2 : OAuth2ProviderInitInfo) (st : store) (url : string) :
  ((Github.init s info1 st).1 = Return url →
   (Github.init s info2 st).1 = Return url →
   redirect_url info1 = redirect_url info2
   ∧ default "undefined" (state info1) = default "undefined" (state info2))
  ∧ (is_Some (_config st) →
     (Gitlab.init net s info1 st).1 = Return url →
     (Gitlab.init net s info2 st).1 = Return url →
     redirect_url info1 = redirect_url info2
     ∧ default "undefined" (state info1) = default "undefined" (state info2)).
Proof.
  split.
  - rewrite !Github_init_run. simpl.
    destruct (scopes s) as [xs|]; [|done].
    intros [= <-] [= Heq].
    do 5 apply String.app_inj in Heq.
    change ("&redirect_uri=" +:+ encodeURIComponent (redirect_url info1))
      with (String "&" ("redirect_uri=" +:+ encodeURIComponent (redirect_url info1)))
      in Heq.
    change ("&redirect_uri=" +:+ encodeURIComponent (redirect_url info2))
      with (String "&" ("redirect_uri=" +:+ encodeURIComponent (redirect_url info2)))
      in Heq.
    apply append_amp_inj in Heq as [Hstate Hredirect];
      [|apply encodeURIComponent_no_amp..].
    apply String.app_inj in Hredirect.
    split; symmetry; by apply encodeURIComponent_inj.
  - intros [c Hc]. rewrite !(Gitlab_init_cached _ _ _ _ _ Hc). simpl.
    destruct (scopes s) as [xs|]; [|done].
    intros [= <-] [= Heq].
    do 6 apply String.app_inj in Heq.
    change ("&state=" +:+ encodeURIComponent_opt (state info1))
      with (String "&" ("state=" +:+ encodeURIComponent_opt (state info1))) in Heq.
    change ("&state=" +:+ encodeURIComponent_opt (state info2))
      with (String "&" ("state=" +:+ encodeURIComponent_opt (state info2))) in Heq.
    apply append_amp_inj in Heq as [Hredirect Hstate];
      [|apply encodeURIComponent_no_amp..].
    apply String.app_inj in Hstate.
    split; symmetry; by apply encodeURIComponent_inj.
Qed.

Lemma init_url_injective_witness :
  let info1 := {| redirect_url := "https://db.example.org/cb"; state := None |} in
  let info2 := {| redirect_url := "https://db.example.org/cb";
                  state := Some "undefined" |} in
  redirect_url info1 = redirect_url info2
  ∧ default "undefined" (state info1) = default "undefined" (state info2).
Proof.
  intros info1 info2.
  destruct (init_url_injective (H := sample_host) (always 200 ∅) sample_settings
              info1 info2 fresh
              "https://github.com/login/oauth/authorize?scope=email%20profile%20openid&client_id=app&state=undefined&redirect_uri=https%3A%2F%2Fdb.example.org%2Fcb")
    as [Hgithub _].
  apply Hgithub; reflexivity.
Defined.

(** ** Requests *)

(** X6. Each GitHub operation makes one request, whatever comes of it, and
    leaves `_config` alone: the token exchange posts to the access_token
    URL, the profile fetch gets api.github.com/user with the token as
    bearer. *)
Theorem Github_requests `{JsHost} (net : network) (s : settings)
    (params : token_params) (token : string) (st : store) :
  (∃ req, (Github.getAccessToken net s params st).2
          = {| _config := _config st; fetched := fetched st ++ [req] |}
          ∧ req_url req = JStr "https://github.com/login/oauth/access_token"
          ∧ req_method req = "POST")
  ∧ (∃ req, (Github.getUserInfo net token st).2
            = {| _config := _config st; fetched := fetched st ++ [req] |}
            ∧ req_url req = JStr "https://api.github.com/user"
            ∧ req_method req = "GET"
            ∧ ("Authorization", "Bearer " +:+ token) ∈ req_headers req).
Proof.
  split.
  - eexists. split.
    { unfold Github.getAccessToken. run.
      match goal with |- context [net ?n ?r] => destruct (net n r) as [res|] end;
        [|reflexivity].
      destruct (body res) as [o|]; [|reflexivity].
      destruct (truthy _); reflexivity. }
    by split.
  - eexists. split.
    { unfold Github.getUserInfo. run.
      match goal with |- context [net ?n ?r] => destruct (net n r) as [res|] end;
        [|reflexivity].
      destruct (body res) as [o|]; [|reflexivity].
      destruct (status res =? 200)%Z; reflexivity. }
    repeat split. simpl. apply elem_of_cons. by left.
Qed.

Lemma Gitlab_getAccessToken_store `{JsHost} (net : network) (s : settings)
    (now : Z) (params : token_params) (st : store) (c : jobj) :
  _config st = Some c →
  ∃ req, (Gitlab.getAccessToken net s now params st).2
         = {| _config := Some c; fetched := fetched st ++ [req] |}
         ∧ req_url req = get_prop c "token_endpoint"
         ∧ req_method req = "POST".
Proof.
  intros Hc. eexists. split.
  { unfold Gitlab.getAccessToken. unfold bind at 1.
    rewrite (Gitlab_getOpenIDConfig_cached _ _ _ _ Hc). run. rewrite Hc.
    match goal with |- context [net ?n ?r] => destruct (net n r) as [res|] end;
      [|reflexivity].
    destruct (body res) as [o|]; [|reflexivity].
    destruct (truthy _); reflexivity. }
  by split.
Qed.

Lemma Gitlab_revokeAccess_store `{JsHost} (net : network) (s : settings)
    (token : string) (st : store) (c : jobj) :
  _config st = Some c →
  (Gitlab.revokeAccess net s token st).2
  = {| _config := Some c;
       fetched := fetched st
         ++ [GET (JStr (to_string (get_prop c "revocation_endpoint")
                        +:+ "?token=" +:+ token))] |}.
Proof.
  intros Hc. unfold Gitlab.revokeAccess. unfold bind at 1.
  rewrite (Gitlab_getOpenIDConfig_cached _ _ _ _ Hc). run. rewrite Hc.
  match goal with |- context [net ?n ?r] => destruct (net n r) as [res|] end;
    [|reflexivity].
  destruct (status res =? 200)%Z; reflexivity.
Qed.

Lemma Gitlab_getUserInfo_store `{JsHost} (net : network) (s : settings)
    (token : string) (st : store) (c : jobj) :
  _config st = Some c →
  ∃ req, (Gitlab.getUserInfo net s token st).2
         = {| _config := Some c; fetched := fetched st ++ [req] |}
         ∧ req_url req = get_prop c "userinfo_endpoint"
         ∧ req_method req = "GET"
         ∧ req_headers req = [("Authorization", "Bearer " +:+ token)].
Proof.
  intros Hc. eexists. split.
  { unfold Gitlab.getUserInfo. unfold bind at 1.
    rewrite (Gitlab_getOpenIDConfig_cached _ _ _ _ Hc). run. rewrite Hc.
    match goal with |- context [net ?n ?r] => destruct (net n r) as [res|] end;
      [|reflexivity].
    destruct (body res) as [o|]; [|reflexivity].
    destruct (status res =? 200)%Z; reflexivity. }
  by repeat split.
Qed.

(** X7. With the discovery document [c] stored, getOpenIDConfig and init make
    no request, and each other GitLab operation makes exactly one, to the
    endpoint [c] names, whatever comes of it. *)
Theorem Gitlab_requests_cached `{JsHost} (net : network) (s : settings)
    (info : OAuth2ProviderInitInfo) (now : Z) (params : token_params)
    (token : string) (st : store) (c : jobj) :
  _config st = Some c →
  (Gitlab.getOpenIDConfig net s st).2 = st
  ∧ (Gitlab.init net s info st).2 = st
  ∧ (∃ req, (Gitlab.getAccessToken net s now params st).2
            = {| _config := Some c; fetched := fetched st ++ [req] |}
            ∧ req_url req = get_prop c "token_endpoint"
            ∧ req_method req = "POST")
  ∧ (Gitlab.revokeAccess net s token st).2
    = {| _config := Some c;
         fetched := fetched st
           ++ [GET (JStr (to_string (get_prop c "revocation_endpoint")
                          +:+ "?token=" +:+ token))] |}
  ∧ (∃ req, (Gitlab.getUserInfo net s token st).2
            = {| _config := Some c; fetched := fetched st ++ [req] |}
            ∧ req_url req = get_prop c "userinfo_endpoint"
            ∧ req_method req = "GET"
            ∧ req_headers req = [("Authorization", "Bearer " +:+ token)]).
Proof.
  intros Hc. split; [|split; [|split; [|split]]].
  - by rewrite (Gitlab_getOpenIDConfig_cached _ _ _ _ Hc).
  - by rewrite (Gitlab_init_cached _ _ _ _ _ Hc).
  - by apply Gitlab_getAccessToken_store.
  - by apply Gitlab_revokeAccess_store.
  - by apply Gitlab_getUserInfo_store.
Qed.

Lemma Gitlab_requests_cached_witness :
  (Gitlab.revokeAccess (H := sample_host) (always 200 ∅) sample_settings "token"
     discovered).2
  = {| _config := _config discovered;
       fetched := [GET (JStr "undefined?token=token")] |}.
Proof.
  destruct (Gitlab_requests_cached (H := sample_host) (always 200 ∅) sample_settings
              sample_info 0 (Refresh "r") "token" discovered
              (discovery "https://gitlab.example.org/oauth/authorize"))
    as (_ & _ & _ & Hrevoke & _); [reflexivity|].
  exact Hrevoke.
Defined.

(** X9. A discovery that fails is not remembered. When getOpenIDConfig throws,
    nothing was stored before and nothing is stored after, one request was
    made, the error is that of the fetch or of the parsing, and every other
    GitLab operation started from the same store stops the same way. *)
Theorem discovery_failure `{JsHost} (net : network) (s : settings)
    (st st1 : store) (e : exn) :
  Gitlab.getOpenIDConfig net s st = (Throw e, st1) →
  _config st = None ∧ _config st1 = None
  ∧ fetched st1 = fetched st ++ [GET (JStr ("https://" +:+ host s
                                           +:+ "/.well-known/openid-configuration"))]
  ∧ (e = FetchError ∨ e = BodyError)
  ∧ ∀ info now params token,
      Gitlab.init net s info st = (Throw e, st1)
      ∧ Gitlab.getAccessToken net s now params st = (Throw e, st1)
      ∧ Gitlab.revokeAccess net s token st = (Throw e, st1)
      ∧ Gitlab.getUserInfo net s token st = (Throw e, st1).
Proof.
  intros Hrun. split; [|split; [|split; [|split]]].
  5: { intros info now params token.
       unfold Gitlab.init, Gitlab.getAccessToken, Gitlab.revokeAccess,
         Gitlab.getUserInfo.
       repeat split; unfold bind at 1; by rewrite Hrun. }
  all: revert Hrun; unfold Gitlab.getOpenIDConfig; run.
  all: destruct (_config st) as [c|] eqn:Hc; [done|].
  all: destruct (net _ _) as [res|]; [destruct (body res) as [c|]; [done|]|].
  all: intros [= <- <-]; simpl; auto.
Qed.

Lemma discovery_failure_witness :
  let down : network := λ _ _, None in
  Gitlab.getUserInfo (H := sample_host) down sample_settings "token" fresh
  = (Throw FetchError,
     {| _config := None;
        fetched := [GET (JStr "https://gitlab.example.org/.well-known/openid-configuration")] |}).
Proof.
  intros down.
  apply (discovery_failure (H := sample_host) down sample_settings fresh
           {| _config := None;
              fetched := [GET (JStr "https://gitlab.example.org/.well-known/openid-configuration")] |}
           FetchError eq_refl).
  - exact sample_info.
  - exact 0%Z.
  - exact (Refresh "r").
Defined.

(** X10. A discovery that succeeds is remembered by whichever operation made it:
    if getOpenIDConfig would return [c] from a store, then after any one
    GitLab operation from that store, failed or not, `_config` holds [c]. *)
Theorem discovery_by_any_call `{JsHost} (net : network) (s : settings)
    (st st1 : store) (c : jobj) (call : gitlab_call) :
  Gitlab.getOpenIDConfig net s st = (Return c, st1) →
  _config (run_call net s call st) = Some c.
Proof.
  intros Hrun.
  pose proof (Gitlab_getOpenIDConfig_Return _ _ _ _ _ Hrun) as Hc.
  destruct call; simpl.
  - by rewrite Hrun.
  - unfold Gitlab.init. unfold bind at 1. rewrite Hrun.
    unfold joined_scopes. run. by destruct (scopes s).
  - unfold Gitlab.getAccessToken. unfold bind at 1. rewrite Hrun. run.
    destruct (net _ _) as [res|]; [|done].
    destruct (body res) as [o|]; [|done].
    by destruct (truthy _).
  - unfold Gitlab.revokeAccess. unfold bind at 1. rewrite Hrun. run.
    destruct (net _ _) as [res|]; [|done].
    by destruct (status res =? 200)%Z.
  - unfold Gitlab.getUserInfo. unfold bind at 1. rewrite Hrun. run.
    destruct (net _ _) as [res|]; [|done].
    destruct (body res) as [o|]; [|done].
    by destruct (status res =? 200)%Z.
Qed.

Lemma discovery_by_any_call_witness :
  _config (run_call (H := sample_host)
             (gitlab_net "https://a.example.org/auth" 401 error_payload)
             sample_settings (CallGetUserInfo "token") fresh)
  = Some (discovery "https://a.example.org/auth").
Proof.
  apply (discovery_by_any_call (H := sample_host)
           (gitlab_net "https://a.example.org/auth" 401 error_payload)
           sample_settings fresh
           (Gitlab.getOpenIDConfig
              (gitlab_net "https://a.example.org/auth" 401 error_payload)
              sample_settings fresh).2).
  reflexivity.
Defined.

(** X11. The log only grows, by at most two requests per operation. *)
Theorem run_call_log `{JsHost} (net : network) (s : settings)
    (call : gitlab_call) (st : store) :
  ∃ new, fetched (run_call net s call st) = fetched st ++ new ∧ length new ≤ 2.
Proof.
  destruct call; simpl;
    unfold Gitlab.init, Gitlab.getAccessToken, Gitlab.revokeAccess,
      Gitlab.getUserInfo, Gitlab.getOpenIDConfig, joined_scopes; run;
    repeat (match goal with
            | |- context [match _config ?x with _ => _ end] => destruct (_config x)
            | |- context [net ?n ?r] => destruct (net n r)
            | |- context [match body ?r with _ => _ end] => destruct (body r)
            | |- context [match scopes ?r with _ => _ end] => destruct (scopes r)
            | |- context [if ?b then _ else _] => destruct b
            end; simpl);
    (eexists; split;
     [first [symmetry; apply app_nil_r | rewrite <- app_assoc; reflexivity | reflexivity]
     |simpl; lia]).
Qed.

(** X8. A whole login on a new GitLab instance, init then getAccessToken then
    getUserInfo, makes three requests when init returns: the discovery
    once, then one to the token endpoint and one to the userinfo endpoint
    of the discovered document, whether or not the last two succeed. *)
Theorem login_flow_requests `{JsHost} (net : network) (s : settings)
    (info : OAuth2ProviderInitInfo) (now : Z) (params : token_params)
    (token : string) (st st1 : store) (url : string) :
  _config st = None →
  Gitlab.init net s info st = (Return url, st1) →
  ∃ c r2 r3,
    _config st1 = Some c
    ∧ fetched (run_calls net s [CallGetAccessToken now params; CallGetUserInfo token] st1)
      = fetched st ++ [GET (JStr ("https://" +:+ host s
                                  +:+ "/.well-known/openid-configuration")); r2; r3]
    ∧ req_url r2 = get_prop c "token_endpoint"
    ∧ req_url r3 = get_prop c "userinfo_endpoint".
Proof.
  intros Hnone Hinit.
  assert (fetched st1 = fetched st
            ++ [GET (JStr ("https://" +:+ host s
                           +:+ "/.well-known/openid-configuration"))]) as Hlog.
  { rewrite <- (Gitlab_getOpenIDConfig_fetched net s st Hnone).
    revert Hinit. unfold Gitlab.init. unfold bind at 1.
    destruct (Gitlab.getOpenIDConfig net s st) as [[config|e] st0]; [|done].
    unfold joined_scopes. run. destruct (scopes s); [|done].
    by intros [= _ <-]. }
  apply Gitlab_init_Return in Hinit as (c & xs & Hc & _ & _).
  destruct (Gitlab_getAccessToken_store net s now params st1 c Hc)
    as (r2 & Hst2 & Hurl2 & _).
  destruct (Gitlab_getUserInfo_store net s token
              {| _config := Some c; fetched := fetched st1 ++ [r2] |} c eq_refl)
    as (r3 & Hst3 & Hurl3 & _).
  exists c, r2, r3. repeat split; [done| |done|done].
  unfold run_calls; simpl. rewrite Hst2, Hst3. simpl.
  by rewrite Hlog, <- !app_assoc.
Qed.

Lemma login_flow_requests_witness :
  length (fetched (run_calls (H := sample_host)
                     (gitlab_net "https://a.example.org/auth" 200 gitlab_user)
                     sample_settings
                     [CallInit sample_info; CallGetAccessToken 0 (Refresh "r");
                      CallGetUserInfo "token"] fresh)) = 3.
Proof.
  destruct (login_flow_requests (H := sample_host)
              (gitlab_net "https://a.example.org/auth" 200 gitlab_user)
              sample_settings sample_info 0 (Refresh "r") "token" fresh
              (Gitlab.init (H := sample_host)
                 (gitlab_net "https://a.example.org/auth" 200 gitlab_user)
                 sample_settings sample_info fresh).2
              "https://a.example.org/auth?response_type=code&access_type=offline&include_granted_scopes=true&client_id=app&scope=email%20profile%20openid&redirect_uri=https%3A%2F%2Fdb.example.org%2Fcb&state=xyz")
    as (c & r2 & r3 & _ & Hlog & _); [reflexivity..|].
  change (run_calls _ sample_settings (CallInit sample_info :: ?rest) fresh)
    with (run_calls (H := sample_host)
            (gitlab_net "https://a.example.org/auth" 200 gitlab_user)
            sample_settings rest
            (Gitlab.init (H := sample_host)
               (gitlab_net "https://a.example.org/auth" 200 gitlab_user)
               sample_settings sample_info fresh).2).
  by rewrite Hlog.
Defined.

(** ** Failures, continued *)

(** X12. revokeAccess looks at the status only: with the discovery document
    stored and an answer to its request, it returns when the status is 200
    and otherwise throws `Revoke failed, error <status>`; the body is never
    read. *)
Theorem revokeAccess_outcome `{JsHost} (net : network) (s : settings)
    (token : string) (st st' : store) (out : outcome unit) (res : response) :
  is_Some (_config st) →
  Gitlab.revokeAccess net s token st = (out, st') →
  last_answer net st' = Some res →
  out = if (status res =? 200)%Z then Return ()
        else Throw (Error ("Revoke failed, error "
                           +:+ Number_toString (inject_Z (status res)))).
Proof.
  intros [c Hc]. unfold Gitlab.revokeAccess. unfold bind at 1.
  rewrite (Gitlab_getOpenIDConfig_cached _ _ _ _ Hc). run.
  destruct (net _ _) as [res'|] eqn:Hnet.
  - destruct (status res' =? 200)%Z eqn:Hst; simpl;
      intros [= <- <-]; rewrite last_answer_snoc, Hnet;
      intros [= ->]; by rewrite Hst.
  - intros [= <- <-]. by rewrite last_answer_snoc, Hnet.
Qed.

Lemma revokeAccess_outcome_witness :
  let net : network := λ _ _, Some {| status := 503; body := None |} in
  (Gitlab.revokeAccess (H := sample_host) net sample_settings "token" discovered).1
  = Throw (Error "Revoke failed, error 503").
Proof.
  intros net.
  apply (revokeAccess_outcome (H := sample_host) net sample_settings "token" discovered
           (Gitlab.revokeAccess (H := sample_host) net sample_settings "token"
              discovered).2 _ {| status := 503; body := None |}).
  - by eexists.
  - reflexivity.
  - reflexivity.
Defined.

(** X13. When the answer to the latest request has a body that does not parse,
    the token exchange and the profile fetch throw the parse error,
    whatever the status: an error status is not reported as such. *)
Theorem unparsable_body `{JsHost} (net : network) (s : settings) (now : Z)
    (params : token_params) (token : string) (st st' : store)
    (out : outcome jobj) (res : response) :
  last_answer net st' = Some res →
  body res = None →
  (Github.getAccessToken net s params st = (out, st') → out = Throw BodyError)
  ∧ (Gitlab.getAccessToken net s now params st = (out, st') → out = Throw BodyError)
  ∧ (Github.getUserInfo net token st = (out, st') → out = Throw BodyError)
  ∧ (Gitlab.getUserInfo net s token st = (out, st') → out = Throw BodyError).
Proof.
  intros Hlast Hbody.
  repeat split; revert Hlast;
    unfold Github.getAccessToken, Gitlab.getAccessToken, Github.getUserInfo,
      Gitlab.getUserInfo, Gitlab.getOpenIDConfig; run;
    repeat (match goal with
            | |- context [match _config ?x with _ => _ end] => destruct (_config x)
            | |- context [net ?n ?r] => destruct (net n r) eqn:?
            | |- context [match body ?r with _ => _ end] => destruct (body r) eqn:?
            | |- context [if ?b then _ else _] => destruct b
            end; simpl);
    intros Hlast [= <- <-]; try done;
    rewrite last_answer_snoc in Hlast; congruence.
Qed.

Lemma unparsable_body_witness :
  let net : network := λ _ _, Some {| status := 502; body := None |} in
  (Github.getUserInfo (H := sample_host) net "token" fresh).1 = Throw BodyError.
Proof.
  intros net.
  destruct (unparsable_body (H := sample_host) net sample_settings 0 (Refresh "r")
              "token" fresh
              (Github.getUserInfo (H := sample_host) net "token" fresh).2
              (Github.getUserInfo (H := sample_host) net "token" fresh).1
              {| status := 502; body := None |})
    as (_ & _ & Hgithub & _); [reflexivity..|].
  apply Hgithub. reflexivity.
Defined.

(** X15. When the profile fetch is answered with a status other than 200 and a
    body that has neither `error` nor `error_description`, the message of
    the Error is "undefined: undefined". *)
Theorem getUserInfo_error_without_fields `{JsHost} (net : network) (s : settings)
    (token : string) (st st' : store) (out : outcome jobj)
    (res : response) (o : jobj) :
  last_answer net st' = Some res →
  body res = Some o →
  status res ≠ 200%Z →
  o !! "error" = None →
  o !! "error_description" = None →
  (Github.getUserInfo net token st = (out, st') →
   out = Throw (Error "undefined: undefined"))
  ∧ (Gitlab.getUserInfo net s token st = (out, st') →
     out = Throw (Error "undefined: undefined")).
Proof.
  intros Hlast Hbody Hstatus Herr Hdesc.
  apply Z.eqb_neq in Hstatus.
  split; intros Hrun.
  - rewrite (Github_getUserInfo_outcome _ _ _ _ _ _ _ Hrun Hlast Hbody).
    rewrite Hstatus. unfold get_prop. by rewrite Herr, Hdesc.
  - rewrite (Gitlab_getUserInfo_outcome _ _ _ _ _ _ _ _ Hrun Hlast Hbody).
    rewrite Hstatus. unfold get_prop. by rewrite Herr, Hdesc.
Qed.

Lemma getUserInfo_error_without_fields_witness :
  (Github.getUserInfo (H := sample_host) (always 404 ∅) "token" fresh).1
  = Throw (Error "undefined: undefined").
Proof.
  destruct (getUserInfo_error_without_fields (H := sample_host) (always 404 ∅)
              sample_settings "token" fresh
              (Github.getUserInfo (H := sample_host) (always 404 ∅) "token" fresh).2
              (Github.getUserInfo (H := sample_host) (always 404 ∅) "token" fresh).1
              {| status := 404; body := Some ∅ |} ∅)
    as (Hgithub & _); [reflexivity|reflexivity|discriminate|reflexivity..|].
  apply Hgithub. reflexivity.
Defined.

(** ** The token of GitLab *)

Lemma quot_lower (a z : Z) (b : positive) :
  (z * Z.pos b ≤ a)%Z → (z ≤ Z.quot a (Z.pos b))%Z.
Proof.
  intros Hz. destruct (Z.le_gt_cases 0 a) as [Ha|Ha].
  - rewrite Z.quot_div_nonneg by lia. apply Z.div_le_lower_bound; lia.
  - replace a with (- - a)%Z by lia.
    rewrite Z.quot_opp_l by lia.
    rewrite Z.quot_div_nonneg by lia.
    assert (Z.div (- a) (Z.pos b) ≤ - z)%Z; [|lia].
    apply Z.div_le_upper_bound; lia.
Qed.

(** X16. A token that getAccessToken returns is the parsed body with `expires`
    put in place of whatever `expires` the body had: every other property
    is as in the body; `expires` is a date, and an invalid one if the body
    has no `expires_in`. *)
Theorem Gitlab_token_fields `{JsHost} (net : network) (s : settings) (now : Z)
    (params : token_params) (st st' : store) (t : jobj) (res : response) (o : jobj) :
  Gitlab.getAccessToken net s now params st = (Return t, st') →
  last_answer net st' = Some res →
  body res = Some o →
  (∀ k, k ≠ "expires" → t !! k = o !! k)
  ∧ (∃ d, t !! "expires" = Some (JDate d))
  ∧ (o !! "expires_in" = None → t !! "expires" = Some (JDate None)).
Proof.
  intros Hrun Hlast Hbody.
  pose proof (Gitlab_getAccessToken_outcome _ _ _ _ _ _ _ _ _ Hrun Hlast Hbody) as Hout.
  destruct (truthy (get_prop o "error")); [done|]. injection Hout as ->.
  split; [|split].
  - intros k Hk. rewrite set_prop_lookup.
    rewrite bool_decide_eq_false_2; [done|]. by intros [<- _].
  - rewrite set_prop_lookup, bool_decide_eq_true_2 by done.
    unfold Gitlab.expiry, new_Date. by eexists.
  - intros Hin. rewrite set_prop_lookup, bool_decide_eq_true_2 by done.
    unfold get_prop. by rewrite Hin.
Qed.

Lemma Gitlab_token_fields_witness :
  let net := gitlab_net "https://a.example.org/auth" 200
               (literal [("access_token", JStr "at"); ("expires", JStr "never")]) in
  ∃ t, (Gitlab.getAccessToken (H := sample_host) net sample_settings 0
          (Refresh "r") fresh).1 = Return t
       ∧ t !! "access_token" = Some (JStr "at")
       ∧ t !! "expires" = Some (JDate None).
Proof.
  intros net. eexists. split; [reflexivity|].
  destruct (Gitlab_token_fields (H := sample_host) net sample_settings 0 (Refresh "r")
              fresh
              (Gitlab.getAccessToken (H := sample_host) net sample_settings 0
                 (Refresh "r") fresh).2
              _
              {| status := 200;
                 body := Some (literal [("access_token", JStr "at");
                                        ("expires", JStr "never")]) |}
              (literal [("access_token", JStr "at"); ("expires", JStr "never")])
              eq_refl eq_refl eq_refl)
    as (Hkeep & _ & Hinvalid).
  split.
  - rewrite Hkeep; [reflexivity|discriminate].
  - apply Hinvalid. reflexivity.
Defined.

(** X17. When `expires_in` converts to a number of seconds that is not negative
    and the date is valid, it is not before the clock reading. *)
Theorem expiry_not_before_now `{JsHost} (now : Z) (v : jval) (secs : Q) (t : Z) :
  to_number v = Some secs →
  (0 <= secs)%Q →
  Gitlab.expiry now v = JDate (Some t) →
  (now ≤ t)%Z.
Proof.
  intros Hnum Hsecs. unfold Gitlab.expiry, new_Date. rewrite Hnum. simpl.
  destruct (Qle_bool _ _); [|done]. intros [= <-].
  apply quot_lower.
  assert (inject_Z now <= inject_Z now + secs * 1000)%Q as Hle.
  { rewrite <- (Qplus_0_r (inject_Z now)) at 1.
    apply Qplus_le_r. apply Qmult_le_0_compat; [done|]. by vm_compute. }
  unfold Qle in Hle. simpl in Hle. lia.
Qed.

Lemma expiry_not_before_now_witness :
  (1700000000000 ≤ 1700007200000)%Z
  ∧ Gitlab.expiry (H := sample_host) 1700000000000 (JNum 7200)
    = JDate (Some 1700007200000%Z).
Proof.
  split; [|reflexivity].
  apply (expiry_not_before_now (H := sample_host) 1700000000000 (JNum 7200) 7200);
    [reflexivity|by vm_compute|reflexivity].
Defined.

(** ** `other`, for every payload *)

(** X18. `other` is a part of the payload: every property it has, the payload
    has with the same value; it has none of the skipped names, and it has
    every other property of the payload (but `__proto__`). *)
Theorem other_submap (user : jobj) :
  (Github.other user ⊆ user
   ∧ (∀ k, k ∈ Github.skipped → Github.other user !! k = None)
   ∧ (∀ k, k ∉ Github.skipped → k ≠ "__proto__" →
           Github.other user !! k = user !! k))
  ∧ (Gitlab.other user ⊆ user
     ∧ (∀ k, k ∈ Gitlab.skipped → Gitlab.other user !! k = None)
     ∧ (∀ k, k ∉ Gitlab.skipped → k ≠ "__proto__" →
             Gitlab.other user !! k = user !! k)).
Proof.
  split; (split; [|split]).
  1,4: apply map_subseteq_spec; intros k v;
    unfold Github.other, Gitlab.other; rewrite filtered_copy_lookup;
    by case_bool_decide.
  1,3: intros k Hk; unfold Github.other, Gitlab.other;
    rewrite filtered_copy_lookup; rewrite bool_decide_eq_true_2; [done|by left].
  all: intros k Hk Hp; unfold Github.other, Gitlab.other;
    rewrite filtered_copy_lookup; rewrite bool_decide_eq_false_2; [done|];
    by intros [?|?].
Qed.

Lemma other_submap_witness :
  Gitlab.other gitlab_user !! "groups" = Some (JArr [JStr "core"]).
Proof.
  destruct (other_submap gitlab_user) as (_ & _ & _ & Hkeep).
  rewrite Hkeep; [reflexivity| |discriminate].
  apply (bool_decide_unpack _). reflexivity.
Defined.

(** ** The /info route, continued *)

(** X21. A request of 'admin' gets every property of the public body and every
    property of adminInfo, each with its value. *)
Theorem info_admin_body `{JsHost} (env : MetaInfo.Environment) :
  let admin := MetaInfo.handler env
                 {| MetaInfo.user := Some {| MetaInfo.uid := "admin" |} |} in
  let public := MetaInfo.handler env {| MetaInfo.user := None |} in
  admin = MetaInfo.adminInfo env ∪ public
  ∧ public ⊆ admin
  ∧ MetaInfo.adminInfo env ⊆ admin.
Proof.
  intros admin public.
  assert (admin = MetaInfo.adminInfo env ∪ public) as -> by reflexivity.
  split; [done|]. split.
  - apply map_union_subseteq_r. apply map_disjoint_dom.
    apply (bool_decide_unpack _). vm_compute. exact I.
  - apply map_union_subseteq_l.
Qed.

(** X14. When the latest request got no answer, the token exchange and the
    profile fetch throw what `fetch` threw. *)
Theorem failed_request `{JsHost} (net : network) (s : settings) (now : Z)
    (params : token_params) (token : string) (st st' : store)
    (out : outcome jobj) :
  last_answer net st' = None →
  (Github.getAccessToken net s params st = (out, st') → out = Throw FetchError)
  ∧ (Gitlab.getAccessToken net s now params st = (out, st') → out = Throw FetchError)
  ∧ (Github.getUserInfo net token st = (out, st') → out = Throw FetchError)
  ∧ (Gitlab.getUserInfo net s token st = (out, st') → out = Throw FetchError).
Proof.
  intros Hlast.
  repeat split; revert Hlast;
    unfold Github.getAccessToken, Gitlab.getAccessToken, Github.getUserInfo,
      Gitlab.getUserInfo, Gitlab.getOpenIDConfig; run;
    repeat (match goal with
            | |- context [match _config ?x with _ => _ end] => destruct (_config x)
            | |- context [net ?n ?r] => destruct (net n r) eqn:?
            | |- context [match body ?r with _ => _ end] => destruct (body r) eqn:?
            | |- context [if ?b then _ else _] => destruct b
            end; simpl);
    intros Hlast [= <- <-]; try done;
    rewrite last_answer_snoc in Hlast; congruence.
Qed.

Lemma failed_request_witness :
  let down : network := λ _ _, None in
  (Github.getAccessToken (H := sample_host) down sample_settings (Refresh "r") fresh).1
  = Throw FetchError.
Proof.
  intros down.
  destruct (failed_request (H := sample_host) down sample_settings 0 (Refresh "r")
              "token" fresh
              (Github.getAccessToken (H := sample_host) down sample_settings
                 (Refresh "r") fresh).2
              (Github.getAccessToken (H := sample_host) down sample_settings
                 (Refresh "r") fresh).1)
    as (Hgithub & _); [reflexivity|].
  apply Hgithub. reflexivity.
Defined.
